(** * Triage-ticket creation: a shallow embedding of
      [tools/create_triage_tickets.py] and the properties of its
      deduplication, pagination, filtering and error paths.

    The script is a sequence of calls to the outside world (the netrc file,
    the issue tracker, the log collector, the clock, two collaborating
    modules).  Each call is modelled as an oracle that reads and updates an
    abstract world [W] and may raise; the script itself is a function in a
    state-and-exception monad whose state is the world together with the
    trace of calls made so far.  The [while True] pagination loop is
    bounded by fuel. *)

From Stdlib Require Import ZArith String Ascii List.
From stdpp Require Import base decidable option list strings gmap.


(** ** Python strings *)

Module PyStr.

(** [s.split(sep, maxsplit)] for a one-character separator, which is what
    each of the three call sites passes (".", "_" and ":").
    [maxsplit = None] is the unbounded split. *)
Fixpoint split (sep : ascii) (maxsplit : option nat) (s : string) : list string :=
  match s with
  | EmptyString => [EmptyString]
  | String c s' =>
      if Ascii.eqb c sep then
        match maxsplit with
        | Some 0 => [s]
        | Some (S n) => EmptyString :: split sep (Some n) s'
        | None => EmptyString :: split sep None s'
        end
      else
        match split sep maxsplit s' with
        | w :: ws => String c w :: ws
        | [] => [String c EmptyString]
        end
  end.

(** [c in s] for a character. *)
Fixpoint contains (c : ascii) (s : string) : bool :=
  match s with
  | EmptyString => false
  | String d s' => Ascii.eqb d c || contains c s'
  end.

End PyStr.

(** ** Constants of the script *)

Definition DEFAULT_DAYS_TO_HANDLE : Z := 30.
Definition DEFAULT_WATCHERS : list string := ["ronniela"; "odepaz"].
Definition LOGS_COLLECTOR : string := "http://assisted-logs-collector.usersys.redhat.com".
Definition JIRA_SERVER : string := "https://issues.redhat.com/".
Definition DEFAULT_NETRC_FILE : string := "~/.netrc".
(** [JIRA_SUMMARY = "cloud.redhat.com failure: {failure_id}"]: the text
    before the only replacement field. *)
Definition JIRA_SUMMARY : string := "cloud.redhat.com failure: ".
(** [urlparse(JIRA_SERVER).hostname] *)
Definition JIRA_HOSTNAME : string := "issues.redhat.com".

(** ** Data model *)

(** A decoded JSON object whose fields the script reads by key.  The cluster
    document and the failure descriptors carry string fields. *)
Abbreviation pydict := (gmap string string).

(** The two documents the collector serves: the listing (a JSON array of
    failure descriptors) and a bundle's metadata (a JSON object of
    objects, of which the script reads ["cluster"]). *)
Inductive json_doc :=
  | DocFiles (l : list pydict)
  | DocMetadata (m : gmap string pydict).

(** What [requests.get] returns: [json = None] is a body that does not
    decode. *)
Record response := { status_code : nat; json : option json_doc }.

(** An issue as the tracker returns it ([key], [fields.summary],
    [fields.status]). *)
Record issue := { key : string; summary : string; status : string }.

(** The handle [jira.JIRA(JIRA_SERVER, basic_auth=(username, password))]. *)
Record jira_client := { jc_server : string; jc_basic_auth : string * string }.

(** The keyword arguments of [jclient.create_issue]; a [{'name': n}]
    dictionary is kept as its name. *)
Record issue_fields := {
  f_project : string;
  f_summary : string;
  f_versions : list string;
  f_components : list string;
  f_priority : string;
  f_issuetype : string;
  f_labels : list string;
  f_description : string
}.

(** The parsed command line. *)
Record args := {
  arg_netrc : string;
  arg_user_password : option string;
  arg_all : bool;
  arg_verbose : bool;
  arg_filters_json : option string
}.

Inductive exn :=
  | KeyError (k : string)
  | ValueError
  | TypeError
  | IndexError
  | UnboundLocalError (var : string)
  | ConnectionError (msg : string)
  | HTTPError (code : nat)
  | JSONDecodeError
  | SystemExit (code : Z)
  | ExternalError (name : string).

Inductive level := DEBUG | INFO | ERROR | EXCEPTION.

Inductive log_arg := LStr (s : string) | LIssue (i : issue).

(** The calls the script makes to the outside, in the order it makes them. *)
Inductive event :=
  | EvNetrc (file host : string)
  | EvJiraLogin (server : string) (auth : string * string)
  | EvHttpGet (url : string)
  | EvSearch (query : string) (maxResults startAt : nat) (fields : list string)
  | EvCreateIssue (f : issue_fields)
  | EvAddWatcher (issue_key watcher : string)
  | EvBuildDescription (url : string) (md : pydict)
  | EvAddSignatures (url issue_key : string)
  | EvDaysAgo (date : string)
  | EvRunUsingJson (path username : string) (issues : list issue)
  | EvLog (lvl : level) (fmt : string) (a : list log_arg).

(** The outside world: every oracle answers from the current world and
    leaves a new one. *)
Record environment (W : Type) := {
  env_netrc : string -> string -> W -> (exn + option (string * string * string)) * W;
  env_jira : string -> string * string -> W -> (exn + unit) * W;
  env_requests_get : string -> W -> (exn + response) * W;
  env_search_issues : jira_client -> string -> nat -> nat -> list string -> W -> (exn + list issue) * W;
  env_create_issue : jira_client -> issue_fields -> W -> (exn + issue) * W;
  env_add_watcher : jira_client -> string -> string -> W -> (exn + unit) * W;
  env_build_description : jira_client -> string -> pydict -> W -> (exn + string) * W;
  env_add_signatures : jira_client -> string -> string -> W -> (exn + unit) * W;
  env_days_ago : string -> W -> (exn + Z) * W;
  env_run_using_json : string -> string -> jira_client -> list issue -> W -> (exn + unit) * W
}.
Arguments env_netrc {W}.
Arguments env_jira {W}.
Arguments env_requests_get {W}.
Arguments env_search_issues {W}.
Arguments env_create_issue {W}.
Arguments env_add_watcher {W}.
Arguments env_build_description {W}.
Arguments env_add_signatures {W}.
Arguments env_days_ago {W}.
Arguments env_run_using_json {W}.

(** ** The state-and-exception monad of the script *)

Inductive outcome (A : Type) :=
  | Return (a : A)
  | Raise (e : exn)
  | OutOfFuel.
Arguments Return {A}.
Arguments Raise {A}.
Arguments OutOfFuel {A}.

Record state (W : Type) := { world : W; trace : list event }.
Arguments world {W}.
Arguments trace {W}.

Definition M (W A : Type) : Type := state W -> outcome A * state W.

Definition ret {W A} (a : A) : M W A := fun st => (Return a, st).

Definition raise {W A} (e : exn) : M W A := fun st => (Raise e, st).

Definition bind {W A B} (m : M W A) (k : A -> M W B) : M W B :=
  fun st =>
    match m st with
    | (Return a, st') => k a st'
    | (Raise e, st') => (Raise e, st')
    | (OutOfFuel, st') => (OutOfFuel, st')
    end.

Declare Scope script_scope.
Delimit Scope script_scope with script.
Notation "x <- m ;; k" := (bind m (fun x => k))
  (at level 100, m at next level, right associativity) : script_scope.
Notation "m ;; k" := (bind m (fun _ => k))
  (at level 100, k at level 200, right associativity) : script_scope.
Local Open Scope script_scope.

(** A bare [try: body / except: handler]: every exception is caught. *)
Definition try_except {W A} (body handler : M W A) : M W A :=
  fun st =>
    match body st with
    | (Raise _, st') => handler st'
    | r => r
    end.

(** A call to the outside: it is recorded, the oracle answers, and an
    exception it signals is raised here. *)
Definition perform {W A} (ev : event) (oracle : W -> (exn + A) * W) : M W A :=
  fun st =>
    let '(r, w') := oracle (world st) in
    (match r with inl e => Raise e | inr a => Return a end,
     {| world := w'; trace := trace st ++ [ev] |}).

(** [logger.<lvl>(fmt, *a)] *)
Definition log {W} (lvl : level) (fmt : string) (a : list log_arg) : M W unit :=
  fun st => (Return tt, {| world := world st; trace := trace st ++ [EvLog lvl fmt a] |}).

(** [for x in l: body(x)] *)
Fixpoint for_each {W A} (l : list A) (body : A -> M W unit) : M W unit :=
  match l with
  | [] => ret tt
  | x :: l' => body x ;; for_each l' body
  end.

(** [d[k]] on a dictionary *)
Definition getitem {W} (d : pydict) (k : string) : M W string :=
  match d !! k with
  | Some v => ret v
  | None => raise (KeyError k)
  end.

(** ** The script *)

Section Script.

Context {W : Type} (E : environment W).

Definition get_credentials_from_netrc (server netrc_file : string) : M W (string * string) :=
  cred <- perform (EvNetrc netrc_file server) (env_netrc E netrc_file server) ;;
  match cred with
  | Some (username, _, password) => ret (username, password)
  | None => raise TypeError
  end.

Definition get_jira_client (username password : string) : M W jira_client :=
  log INFO "log-in with username: %s" [LStr username] ;;
  perform (EvJiraLogin JIRA_SERVER (username, password))
          (env_jira E JIRA_SERVER (username, password)) ;;
  ret {| jc_server := JIRA_SERVER; jc_basic_auth := (username, password) |}.

Definition format_summary (failure_data : pydict) : M W string :=
  failure_id <- getitem failure_data "failure_id" ;;
  ret (JIRA_SUMMARY +:+ failure_id).

Definition format_labels (failure_data : pydict) : M W (list string) :=
  cluster_id <- getitem failure_data "cluster_id" ;;
  username <- getitem failure_data "username" ;;
  domain <- getitem failure_data "domain" ;;
  ret ["no-qe";
       "AI_CLOUD_TRIAGE";
       "AI_CLUSTER_" +:+ cluster_id;
       "AI_USER_" +:+ username;
       "AI_DOMAIN_" +:+ domain].

(** ['component = "Assisted-Installer Triage"'] *)
Definition query : string :=
  "component = " +:+ String (ascii_of_nat 34)
    ("Assisted-Installer Triage" +:+ String (ascii_of_nat 34) EmptyString).
Definition block_size : nat := 100.

(** The [while True] loop of [get_all_triage_tickets], one iteration per
    unit of fuel. *)
Fixpoint triage_tickets_loop (fuel : nat) (jclient : jira_client) (idx : nat)
    (summaries : list string) (issues : list issue) : M W (list issue * list string) :=
  match fuel with
  | O => fun st => (OutOfFuel, st)
  | S fuel' =>
      issues_bulk <- perform (EvSearch query block_size idx ["summary"; "key"; "status"])
                       (env_search_issues E jclient query block_size idx
                          ["summary"; "key"; "status"]) ;;
      if length issues_bulk =? 0 then ret (issues, summaries)
      else triage_tickets_loop fuel' jclient (idx + block_size)
             (summaries ++ (summary <$> issues_bulk)) (issues ++ issues_bulk)
  end.

Definition get_all_triage_tickets (fuel : nat) (jclient : jira_client)
    : M W (list issue * gset string) :=
  r <- triage_tickets_loop fuel jclient 0 [] [] ;;
  ret (r.1, list_to_set r.2).

Definition add_watchers (jclient : jira_client) (i : issue) : M W unit :=
  for_each DEFAULT_WATCHERS (fun watcher =>
    perform (EvAddWatcher (key i) watcher) (env_add_watcher E jclient (key i) watcher)).

(** [major, minor, *_ = l] *)
Definition unpack_major_minor (l : list string) : M W (string * string) :=
  match l with
  | major :: minor :: _ => ret (major, minor)
  | _ => raise ValueError
  end.

Definition create_jira_ticket (jclient : jira_client) (existing_tickets : gset string)
    (failure_id : string) (cluster_md : pydict) : M W (option issue) :=
  summary <- format_summary {[ "failure_id" := failure_id ]} ;;
  if decide (summary ∈ existing_tickets) then
    log DEBUG "issue found: %s" [LStr summary] ;;
    ret None
  else
    let url := LOGS_COLLECTOR +:+ "/files/" +:+ failure_id in
    version <- getitem cluster_md "openshift_version" ;;
    mm <- unpack_major_minor (PyStr.split "." None version) ;;
    let ocp_key := mm.1 +:+ "." +:+ mm.2 in
    let ticket_affected_version_field := "OpenShift " +:+ ocp_key in
    user_name <- getitem cluster_md "user_name" ;;
    email_domain <- getitem cluster_md "email_domain" ;;
    cluster_id <- getitem cluster_md "id" ;;
    labels <- format_labels (<["username" := user_name]>
                             (<["domain" := email_domain]>
                              {[ "cluster_id" := cluster_id ]})) ;;
    description <- perform (EvBuildDescription url cluster_md)
                     (env_build_description E jclient url cluster_md) ;;
    let fields := {| f_project := "MGMT";
                     f_summary := summary;
                     f_versions := [ticket_affected_version_field];
                     f_components := ["Assisted-installer Triage"];
                     f_priority := "Blocker";
                     f_issuetype := "Bug";
                     f_labels := labels;
                     f_description := description |} in
    new_issue <- perform (EvCreateIssue fields) (env_create_issue E jclient fields) ;;
    log INFO "issue created: %s" [LIssue new_issue] ;;
    add_watchers jclient new_issue ;;
    ret (Some new_issue).

(** [requests.get(url)] *)
Definition requests_get (url : string) : M W response :=
  perform (EvHttpGet url) (env_requests_get E url).

(** [res.raise_for_status()]: client and server error codes raise. *)
Definition raise_for_status (res : response) : M W unit :=
  if (400 <=? status_code res) && (status_code res <? 600)
  then raise (HTTPError (status_code res))
  else ret tt.

(** [res.json()] *)
Definition res_json (res : response) : M W json_doc :=
  match json res with
  | Some doc => ret doc
  | None => raise JSONDecodeError
  end.

(** What [for failure in failed_clusters] binds [failure] to: the elements
    of a list, or the keys of a dictionary. *)
Inductive item := ItemDict (d : pydict) | ItemStr (s : string).

Definition iterate (doc : json_doc) : list item :=
  match doc with
  | DocFiles l => ItemDict <$> l
  | DocMetadata m => ItemStr <$> (map_to_list m).*1
  end.

(** [failure[k]]: a string cannot be indexed by a string. *)
Definition item_getitem (failure : item) (k : string) : M W string :=
  match failure with
  | ItemDict d => getitem d k
  | ItemStr _ => raise TypeError
  end.

(** [res.json()[k]]: a list cannot be indexed by a string. *)
Definition doc_getitem (doc : json_doc) (k : string) : M W pydict :=
  match doc with
  | DocMetadata m =>
      match m !! k with
      | Some v => ret v
      | None => raise (KeyError k)
      end
  | DocFiles _ => raise TypeError
  end.

(** [l[0]] *)
Definition first_item (l : list string) : M W string :=
  match l with
  | x :: _ => ret x
  | [] => raise IndexError
  end.

(** [ats.days_ago(date)] *)
Definition days_ago (date : string) : M W Z :=
  perform (EvDaysAgo date) (env_days_ago E date).

Definition metadata_url (name : string) : string :=
  LOGS_COLLECTOR +:+ "/files/" +:+ name +:+ "/metadata.json".

(** Lines 134 to 141: what the loop body does with the answer to the
    metadata request. *)
Definition handle_metadata (jclient : jira_client) (summaries : gset string)
    (name : string) (res : response) : M W unit :=
  raise_for_status res ;;
  doc <- res_json res ;;
  cluster <- doc_getitem doc "cluster" ;;
  cluster_status <- getitem cluster "status" ;;
  if decide (cluster_status = "error") then
    new_issue <- create_jira_ticket jclient summaries name cluster ;;
    match new_issue with
    | Some i =>
        let logs_url := LOGS_COLLECTOR +:+ "/files/" +:+ name in
        perform (EvAddSignatures logs_url (key i)) (env_add_signatures E jclient logs_url (key i))
    | None => ret tt
    end
  else ret tt.

(** Lines 133 to 141: the part of the loop body after the age filter. *)
Definition process_failure (jclient : jira_client) (summaries : gset string)
    (name : string) : M W unit :=
  res <- requests_get (metadata_url name) ;;
  handle_metadata jclient summaries name res.

(** Lines 129 to 131: the age filter.  [Some name] when the bundle is to
    be handled, [None] when the loop goes on to the next one ([continue]).
    The [and] evaluates [ats.days_ago] only when [arg.all] is false. *)
Definition age_filter (arg : args) (failure : item) : M W (option string) :=
  name <- item_getitem failure "name" ;;
  date <- first_item (PyStr.split "_" None name) ;;
  too_old <- (if negb (arg_all arg)
              then (d <- days_ago date ;; ret (DEFAULT_DAYS_TO_HANDLE <? d)%Z)
              else ret false) ;;
  if (too_old : bool) then ret None else ret (Some name).

(** Lines 129 to 141: the body of [for failure in failed_clusters]. *)
Definition handle_failure (arg : args) (jclient : jira_client) (summaries : gset string)
    (failure : item) : M W unit :=
  todo <- age_filter arg failure ;;
  match todo with
  | None => ret tt
  | Some name => process_failure jclient summaries name
  end.

(** [[username, password] = l] *)
Definition unpack_pair (l : list string) : M W (string * string) :=
  match l with
  | [username; password] => ret (username, password)
  | _ => raise ValueError
  end.

(** Reading the locals [username] and [password], which are bound only
    when one of the two branches of the credential step assigned them. *)
Definition read_credentials (locals : option (string * string)) : M W (string * string) :=
  match locals with
  | Some c => ret c
  | None => raise (UnboundLocalError "username")
  end.

(** Lines 105 to 111. *)
Definition resolve_credentials (arg : args) : M W (option (string * string)) :=
  match arg_user_password arg with
  | None =>
      c <- get_credentials_from_netrc JIRA_HOSTNAME (arg_netrc arg) ;;
      ret (Some c)
  | Some user_password =>
      try_except
        (c <- unpack_pair (PyStr.split ":" (Some 1) user_password) ;; ret (Some c))
        (log ERROR "Failed to parse user:password" [] ;; ret None)
  end.

(** Lines 128 to 141. *)
Definition failures_loop (arg : args) (jclient : jira_client) (summaries : gset string)
    (failed_clusters : json_doc) : M W unit :=
  for_each (iterate failed_clusters) (handle_failure arg jclient summaries).

(** Lines 143 to 151. *)
Definition close_tickets (arg : args) (jclient : jira_client) (username : string)
    (issues : list issue) : M W unit :=
  match arg_filters_json arg with
  | None => ret tt
  | Some path =>
      if decide (path = "") then ret tt
      else perform (EvRunUsingJson path username issues)
             (env_run_using_json E path username jclient issues)
  end.

(** Lines 105 to 113: the credentials and the client. *)
Definition login (arg : args) : M W (string * jira_client) :=
  locals <- resolve_credentials arg ;;
  c <- read_credentials locals ;;
  jclient <- get_jira_client c.1 c.2 ;;
  ret (c.1, jclient).

(** Lines 115 to 122: the listing of the failure bundles. *)
Definition list_failures : M W json_doc :=
  res <- try_except
           (requests_get (LOGS_COLLECTOR +:+ "/files/"))
           (log EXCEPTION "Error getting list of failed clusters" [] ;;
            raise (SystemExit 1)) ;;
  raise_for_status res ;;
  res_json res.

Definition main (fuel : nat) (arg : args) : M W unit :=
  s <- login arg ;;
  failed_clusters <- list_failures ;;
  t <- get_all_triage_tickets fuel s.2 ;;
  (if decide (t.1 = []) then raise (ConnectionError "Failed to get any issues from JIRA")
   else ret tt) ;;
  failures_loop arg s.2 t.2 failed_clusters ;;
  close_tickets arg s.2 s.1 t.1.

End Script.

(** ** Concrete worlds, used to run the script on examples *)

Module Demo.

(** A world without memory: the collector answers by URL, the tracker
    serves the pages of [pages] by start index and accepts every
    creation, the clock answers by date. *)
Definition env (http : string -> exn + response) (pages : list (list issue))
    (age : string -> exn + Z) : environment unit :=
  {| env_netrc := fun _ _ w => (inr (Some ("alice", "", "secret")), w);
     env_jira := fun _ _ w => (inr tt, w);
     env_requests_get := fun url w => (http url, w);
     env_search_issues := fun _ _ maxResults startAt _ w =>
       (inr (default [] (pages !! (startAt / maxResults))), w);
     env_create_issue := fun _ f w =>
       (inr {| key := "MGMT-1"; summary := f_summary f; status := "New" |}, w);
     env_add_watcher := fun _ _ _ w => (inr tt, w);
     env_build_description := fun _ url _ w => (inr ("logs: " +:+ url), w);
     env_add_signatures := fun _ _ _ w => (inr tt, w);
     env_days_ago := fun date w => (age date, w);
     env_run_using_json := fun _ _ _ _ w => (inr tt, w) |}.

Definition init : state unit := {| world := tt; trace := [] |}.

Definition jclient : jira_client :=
  {| jc_server := JIRA_SERVER; jc_basic_auth := ("alice", "secret") |}.

Definition cluster_abc : pydict :=
  <["status" := "error"]>
  (<["openshift_version" := "4.12.3"]>
   (<["id" := "abc"]>
    (<["user_name" := "alice"]>
     {[ "email_domain" := "redhat.com" ]}))).

Definition failure_abc : pydict := {[ "name" := "2023-01-01_cluster-abc" ]}.

Definition ok_response (doc : json_doc) : response :=
  {| status_code := 200; json := Some doc |}.

(** A collector that lists [listing] and serves [md] as the cluster of
    every bundle. *)
Definition collector (listing : list pydict) (md : pydict) (url : string) : exn + response :=
  if decide (url = LOGS_COLLECTOR +:+ "/files/")
  then inr (ok_response (DocFiles listing))
  else inr (ok_response (DocMetadata {[ "cluster" := md ]})).

(** A collector that lists [listing] and answers every metadata request
    with a server error. *)
Definition broken_collector (listing : list pydict) (url : string) : exn + response :=
  if decide (url = LOGS_COLLECTOR +:+ "/files/")
  then inr (ok_response (DocFiles listing))
  else inr {| status_code := 500; json := None |}.

(** A collector that cannot be reached. *)
Definition unreachable (url : string) : exn + response :=
  inl (ExternalError "requests.exceptions.ConnectionError").

Definition cluster_installed : pydict := <["status" := "installed"]> cluster_abc.


Definition other_ticket : issue :=
  {| key := "MGMT-7"; summary := "cloud.redhat.com failure: 2022-12-31_cluster-xyz";
     status := "Closed" |}.

Definition ticket_abc : issue :=
  {| key := "MGMT-8"; summary := "cloud.redhat.com failure: 2023-01-01_cluster-abc";
     status := "New" |}.

Definition recent (date : string) : exn + Z := inr 3%Z.
Definition stale (date : string) : exn + Z := inr 400%Z.

Definition cli (up : option string) (all : bool) : args :=
  {| arg_netrc := DEFAULT_NETRC_FILE; arg_user_password := up; arg_all := all;
     arg_verbose := false; arg_filters_json := Some "./triage_resolving_filters.json" |}.

Definition existing_abc : gset string := {[ summary ticket_abc ]}.
Definition existing_other : gset string := {[ summary other_ticket ]}.

(** One bundle in error, already ticketed. *)
Definition ticketed : environment unit :=
  env (collector [failure_abc] cluster_abc) [[ticket_abc]] recent.

(** One bundle in error, not ticketed yet. *)
Definition fresh : environment unit :=
  env (collector [failure_abc] cluster_abc) [[other_ticket]] recent.

(** The same bundle, more than 30 days old. *)
Definition old : environment unit :=
  env (collector [failure_abc] cluster_abc) [[other_ticket]] stale.

(** The same bundle, with a cluster that is not in error. *)
Definition installed : environment unit :=
  env (collector [failure_abc] cluster_installed) [[other_ticket]] recent.


(** The same bundle, listed twice. *)
Definition listed_twice : environment unit :=
  env (collector [failure_abc; failure_abc] cluster_abc) [[other_ticket]] recent.

(** A tracker with two pages of tickets. *)
Definition two_pages : environment unit :=
  env (collector [] ∅) [[other_ticket]; [ticket_abc]] recent.

(** A tracker without any ticket. *)
Definition no_tickets : environment unit :=
  env (collector [failure_abc] cluster_abc) [] recent.

Definition down : environment unit := env unreachable [[other_ticket]] recent.

Definition broken : environment unit :=
  env (broken_collector [failure_abc; failure_abc]) [[other_ticket]] recent.

Definition alice : args := cli (Some "alice:secret") false.

(** A world without memory in which each collaborator can be made to
    fail: [netrc] is the entry of the tracker host, [failing_search] the
    start index at which the search raises, [creation], [watcher] and
    [description] the answers to [create_issue], [add_watcher] and
    [build_description]. *)
Definition env_with (netrc : option (string * string * string))
    (http : string -> exn + response) (pages : list (list issue))
    (failing_search : option nat) (age : string -> exn + Z)
    (creation : exn + issue) (watcher : string -> exn + unit)
    (description : exn + string) : environment unit :=
  {| env_netrc := fun _ _ w => (inr netrc, w);
     env_jira := fun _ _ w => (inr tt, w);
     env_requests_get := fun url w => (http url, w);
     env_search_issues := fun _ _ maxResults startAt _ w =>
       (if decide (failing_search = Some startAt)
        then inl (ExternalError "jira.exceptions.JIRAError")
        else inr (default [] (pages !! (startAt / maxResults))), w);
     env_create_issue := fun _ _ w => (creation, w);
     env_add_watcher := fun _ _ watcher_name w => (watcher watcher_name, w);
     env_build_description := fun _ _ _ w => (description, w);
     env_add_signatures := fun _ _ _ w => (inr tt, w);
     env_days_ago := fun date w => (age date, w);
     env_run_using_json := fun _ _ _ _ w => (inr tt, w) |}.

Definition new_ticket : issue :=
  {| key := "MGMT-9"; summary := "cloud.redhat.com failure: 2023-01-01_cluster-abc";
     status := "New" |}.

Definition jira_error : exn := ExternalError "jira.exceptions.JIRAError".

(** The netrc file has no entry for the tracker host. *)
Definition no_netrc_entry : environment unit :=
  env_with None (collector [failure_abc] cluster_abc) [[other_ticket]] None recent
    (inr new_ticket) (fun _ => inr tt) (inr "description").

(** Every collaborator answers. *)
Definition healthy : environment unit :=
  env_with (Some ("alice", "", "secret")) (collector [failure_abc] cluster_abc)
    [[other_ticket]] None recent (inr new_ticket) (fun _ => inr tt) (inr "description").

(** The tracker refuses the first watcher. *)
Definition no_watchers : environment unit :=
  env_with (Some ("alice", "", "secret")) (collector [failure_abc] cluster_abc)
    [[other_ticket]] None recent (inr new_ticket) (fun _ => inl jira_error)
    (inr "description").

(** The tracker refuses the creation. *)
Definition no_creation : environment unit :=
  env_with (Some ("alice", "", "secret")) (collector [failure_abc] cluster_abc)
    [[other_ticket]] None recent (inl jira_error) (fun _ => inr tt) (inr "description").

(** The description cannot be built. *)
Definition no_description : environment unit :=
  env_with (Some ("alice", "", "secret")) (collector [failure_abc] cluster_abc)
    [[other_ticket]] None recent (inr new_ticket) (fun _ => inr tt) (inl jira_error).

(** The second search of the pagination raises. *)
Definition second_search_fails : environment unit :=
  env_with (Some ("alice", "", "secret")) (collector [failure_abc] cluster_abc)
    [[other_ticket]; [ticket_abc]] (Some 100) recent (inr new_ticket) (fun _ => inr tt)
    (inr "description").

(** The collector answers every request with "service unavailable". *)
Definition unavailable : environment unit :=
  env (fun _ => inr {| status_code := 503; json := None |}) [[other_ticket]] recent.






Definition cluster_no_id : pydict := delete "id" cluster_abc.

Definition cluster_rc : pydict := <["openshift_version" := "4.12.0-rc.1"]> cluster_abc.

Definition failure_xyz : pydict := {[ "name" := "2023-01-02_cluster-xyz" ]}.

(** Two bundles in error, neither ticketed yet. *)
Definition two_bundles : environment unit :=
  env (collector [failure_abc; failure_xyz] cluster_abc) [[other_ticket]] recent.

(** A collector with memory: the world counts its answers.  Its first
    answer to a metadata request is a cluster that is installed; from the
    second on the cluster is in error. *)
Definition changing : environment nat :=
  {| env_netrc := fun _ _ w => (inr (Some ("alice", "", "secret")), w);
     env_jira := fun _ _ w => (inr tt, w);
     env_requests_get := fun url w =>
       (inr (ok_response
               (DocMetadata {[ "cluster" := if decide (w = 0) then cluster_installed
                                             else cluster_abc ]})), S w);
     env_search_issues := fun _ _ _ _ _ w => (inr [], w);
     env_create_issue := fun _ _ w => (inr new_ticket, w);
     env_add_watcher := fun _ _ _ w => (inr tt, w);
     env_build_description := fun _ _ _ w => (inr "description", w);
     env_add_signatures := fun _ _ _ w => (inr tt, w);
     env_days_ago := fun _ w => (inr 3%Z, w);
     env_run_using_json := fun _ _ _ _ w => (inr tt, w) |}.

(** The collector of [changing] before its first answer, and after it. *)
Definition first_answer : state nat := {| world := 0; trace := [] |}.
Definition second_answer : state nat := {| world := 1; trace := [] |}.

End Demo.


(** ** Observations on a trace *)

(** The [create_issue] calls of a trace, in order. *)
Definition creations (tr : list event) : list issue_fields :=
  omap (fun ev => match ev with EvCreateIssue f => Some f | _ => None end) tr.

Definition created_summaries (tr : list event) : list string :=
  f_summary <$> creations tr.

(** [creates m L]: whatever the state, the summaries of the tickets that
    [m] creates are, in order, among those of [L]. *)
Definition creates {W A} (m : M W A) (L : list string) : Prop :=
  forall st, exists evs,
    trace (m st).2 = trace st ++ evs /\ created_summaries evs `sublist_of` L.

(** [creates_distinct m]: no two tickets that [m] creates have the same
    summary. *)
Definition creates_distinct {W A} (m : M W A) : Prop :=
  forall st, exists evs,
    trace (m st).2 = trace st ++ evs /\ NoDup (created_summaries evs).

(** The calls that reach the tracker with the credentials. *)
Definition authenticated_call (ev : event) : bool :=
  match ev with
  | EvJiraLogin _ _ | EvSearch _ _ _ _ | EvCreateIssue _ | EvAddWatcher _ _ => true
  | _ => false
  end.

(** A run that has gone on to the tracker: it did not end in an exception,
    or it made an authenticated call. *)
Definition goes_on_to_tracker {W} (r : outcome unit * state W) : Prop :=
  (forall e, r.1 <> Raise e) \/ Exists (fun ev => authenticated_call ev = true) (trace r.2).

(** The events a run added to the trace it started from. *)
Definition new_events {W} (st st' : state W) : list event :=
  drop (length (trace st)) (trace st').

Definition item_name (failure : item) : option string :=
  match failure with
  | ItemDict d => d !! "name"
  | ItemStr _ => None
  end.

(** The searches of a pagination that fetched [n] pages. *)
Definition searches (n : nat) : list event :=
  (fun k => EvSearch query block_size (k * block_size) ["summary"; "key"; "status"])
    <$> seq 0 n.

Definition nonempty_page (p : list issue) : Prop := p <> [].

(** The tracker answers the successive searches from start index [idx] in
    world [w] with [pages], leaving world [w']. *)
Fixpoint serves {W} (E : environment W) (jclient : jira_client) (idx : nat)
    (pages : list (list issue)) (w w' : W) : Prop :=
  match pages with
  | [] => w = w'
  | p :: ps =>
      exists w1,
        env_search_issues E jclient query block_size idx ["summary"; "key"; "status"] w
          = (inr p, w1)
        /\ serves E jclient (idx + block_size) ps w1 w'
  end.

(** A response that passes [raise_for_status] and decodes to a metadata
    document whose cluster is [md]. *)
Definition serves_cluster (res : response) (md : pydict) : Prop :=
  ((400 <=? status_code res) && (status_code res <? 600) = false)
  /\ exists m, json res = Some (DocMetadata m) /\ m !! "cluster" = Some md.

(** The cluster document has what [create_jira_ticket] reads from it: a
    version whose first two components are [major] and [minor], and the
    three fields of the labels. *)
Definition cluster_fields (md : pydict)
    (major minor user_name email_domain cluster_id : string) : Prop :=
  (exists version rest,
      md !! "openshift_version" = Some version
      /\ PyStr.split "." None version = major :: minor :: rest)
  /\ md !! "user_name" = Some user_name
  /\ md !! "email_domain" = Some email_domain
  /\ md !! "id" = Some cluster_id.

(** The keyword arguments of the [create_issue] call of lines 87 to 97. *)
Definition expected_fields (failure_id major minor user_name email_domain cluster_id
    description : string) : issue_fields :=
  {| f_project := "MGMT";
     f_summary := JIRA_SUMMARY +:+ failure_id;
     f_versions := ["OpenShift " +:+ major +:+ "." +:+ minor];
     f_components := ["Assisted-installer Triage"];
     f_priority := "Blocker";
     f_issuetype := "Bug";
     f_labels := ["no-qe"; "AI_CLOUD_TRIAGE"; "AI_CLUSTER_" +:+ cluster_id;
                  "AI_USER_" +:+ user_name; "AI_DOMAIN_" +:+ email_domain];
     f_description := description |}.


(** [only P m]: whatever the state, every call that [m] makes satisfies
    [P]. *)
Definition only {W A} (P : event -> Prop) (m : M W A) : Prop :=
  forall st, exists evs, trace (m st).2 = trace st ++ evs /\ Forall P evs.

(** In state [st] the bundle [failure] passes the age filter under the
    name [name], the metadata then served for it describes a cluster in
    error with all the fields of a ticket, and its description builds. *)
Definition ticketable {W} (E : environment W) (arg : args) (jclient : jira_client)
    (failure : item) (name : string) (st : state W) : Prop :=
  exists st1 res w2 md major minor user_name email_domain cluster_id description w3,
    age_filter E arg failure st = (Return (Some name), st1)
    /\ env_requests_get E (metadata_url name) (world st1) = (inr res, w2)
    /\ serves_cluster res md
    /\ md !! "status" = Some "error"
    /\ cluster_fields md major minor user_name email_domain cluster_id
    /\ env_build_description E jclient (LOGS_COLLECTOR +:+ "/files/" +:+ name) md w2
       = (inr description, w3).

(** ** Facts about [split] *)

Lemma split_not_nil sep maxsplit s : PyStr.split sep maxsplit s <> [].
Proof.
  revert maxsplit. induction s as [|c s IH]; intros maxsplit; simpl; [done|].
  destruct (Ascii.eqb c sep).
  - destruct maxsplit as [[|n]|]; done.
  - destruct (PyStr.split sep maxsplit s); done.
Qed.

Lemma split_without_sep sep maxsplit s :
  PyStr.contains sep s = false -> PyStr.split sep maxsplit s = [s].
Proof.
  induction s as [|c s IH]; simpl; [done|].
  intros H. apply orb_false_iff in H as [Hc Hs].
  rewrite Hc, (IH Hs). done.
Qed.

Lemma split_with_sep sep s :
  PyStr.contains sep s = true ->
  exists a b rest, PyStr.split sep None s = a :: b :: rest.
Proof.
  induction s as [|c s IH]; simpl; [done|].
  destruct (Ascii.eqb c sep) eqn:Hc; simpl.
  - intros _. destruct (PyStr.split sep None s) as [|b rest] eqn:Hs.
    + by apply split_not_nil in Hs.
    + eauto.
  - intros H. destruct (IH H) as (a & b & rest & ->). eauto.
Qed.

Lemma summary_inj a b : JIRA_SUMMARY +:+ a = JIRA_SUMMARY +:+ b -> a = b.
Proof. unfold JIRA_SUMMARY. simpl. intros H. by simplify_eq. Qed.

(** ** Stepping through the monad *)

Section Steps.

Context {W : Type}.

Lemma bind_ret {A B} (a : A) (k : A -> M W B) st : bind (ret a) k st = k a st.
Proof. done. Qed.

Lemma bind_raise {A B} e (k : A -> M W B) st : bind (raise e) k st = (Raise e, st).
Proof. done. Qed.

Lemma bind_return {A B} (m : M W A) (k : A -> M W B) st a st' :
  m st = (Return a, st') -> bind m k st = k a st'.
Proof. unfold bind. by intros ->. Qed.

Lemma bind_raised {A B} (m : M W A) (k : A -> M W B) st e st' :
  m st = (Raise e, st') -> bind m k st = (Raise e, st').
Proof. unfold bind. by intros ->. Qed.

Lemma bind_assoc {A B C} (m : M W A) (k : A -> M W B) (h : B -> M W C) st :
  bind (bind m k) h st = bind m (fun a => bind (k a) h) st.
Proof. unfold bind. destruct (m st) as [[a|e|] st']; done. Qed.

Lemma bind_ext {A B} (m : M W A) (k k' : A -> M W B) st :
  (forall a st', k a st' = k' a st') -> bind m k st = bind m k' st.
Proof. intros H. unfold bind. destruct (m st) as [[a|e|] st']; auto. Qed.

Lemma perform_return {A} ev (oracle : W -> (exn + A) * W) st a w' :
  oracle (world st) = (inr a, w') ->
  perform ev oracle st = (Return a, {| world := w'; trace := trace st ++ [ev] |}).
Proof. unfold perform. by intros ->. Qed.

Lemma perform_raise {A} ev (oracle : W -> (exn + A) * W) st e w' :
  oracle (world st) = (inl e, w') ->
  perform ev oracle st = (Raise e, {| world := w'; trace := trace st ++ [ev] |}).
Proof. unfold perform. by intros ->. Qed.

Lemma getitem_some (d : pydict) k v st :
  d !! k = Some v -> getitem (W:=W) d k st = (Return v, st).
Proof. unfold getitem. by intros ->. Qed.

Lemma for_each_app {A} (l1 l2 : list A) (body : A -> M W unit) st :
  for_each (l1 ++ l2) body st = bind (for_each l1 body) (fun _ => for_each l2 body) st.
Proof.
  revert st. induction l1 as [|x l1 IH]; intros st; simpl; [done|].
  rewrite bind_assoc. apply bind_ext. intros _ st'. apply IH.
Qed.

Lemma new_events_app (st st' : state W) evs :
  trace st' = trace st ++ evs -> new_events st st' = evs.
Proof. unfold new_events. intros ->. by rewrite drop_app_length. Qed.

Lemma creations_app tr1 tr2 : creations (tr1 ++ tr2) = creations tr1 ++ creations tr2.
Proof. unfold creations. apply omap_app. Qed.

Lemma created_summaries_app tr1 tr2 :
  created_summaries (tr1 ++ tr2) = created_summaries tr1 ++ created_summaries tr2.
Proof. unfold created_summaries. by rewrite creations_app, fmap_app. Qed.

Lemma creates_ret {A} (a : A) : creates (W:=W) (ret a) [].
Proof. intros st. exists []. simpl. by rewrite app_nil_r. Qed.

Lemma creates_raise {A} e : creates (W:=W) (raise (A:=A) e) [].
Proof. intros st. exists []. simpl. by rewrite app_nil_r. Qed.

Lemma creates_out_of_fuel {A} : creates (fun st : state W => (OutOfFuel (A:=A), st)) [].
Proof. intros st. exists []. simpl. by rewrite app_nil_r. Qed.

Lemma creates_log lvl fmt a : creates (log (W:=W) lvl fmt a) [].
Proof. intros st. by exists [EvLog lvl fmt a]. Qed.

Lemma creates_perform {A} ev (oracle : W -> (exn + A) * W) :
  creates (perform ev oracle) (created_summaries [ev]).
Proof.
  intros st. exists [ev]. unfold perform.
  by destruct (oracle (world st)) as [[e|a] w'].
Qed.

Lemma creates_weaken {A} (m : M W A) L L' :
  L `sublist_of` L' -> creates m L -> creates m L'.
Proof.
  intros HL Hm st. destruct (Hm st) as (evs & Htr & Hsub).
  exists evs. split; [done|]. by etrans.
Qed.

Lemma creates_bind {A B} (m : M W A) (k : A -> M W B) L1 L2 :
  creates m L1 ->
  (forall a st st', m st = (Return a, st') -> creates (k a) L2) ->
  creates (bind m k) (L1 ++ L2).
Proof.
  intros Hm Hk st. destruct (Hm st) as (evs & Htr & Hsub).
  unfold bind. destruct (m st) as [[a|e|] st'] eqn:Hst; simpl in *.
  - destruct (Hk a st st' Hst st') as (evs' & Htr' & Hsub').
    exists (evs ++ evs'). rewrite Htr', Htr, <- app_assoc. split; [done|].
    rewrite created_summaries_app. by apply sublist_app.
  - exists evs. split; [done|]. by apply sublist_inserts_r.
  - exists evs. split; [done|]. by apply sublist_inserts_r.
Qed.

Lemma creates_bind_quiet {A B} (m : M W A) (k : A -> M W B) L :
  creates m [] ->
  (forall a st st', m st = (Return a, st') -> creates (k a) L) ->
  creates (bind m k) L.
Proof. intros Hm Hk. by apply (creates_bind m k [] L). Qed.

Lemma creates_try_except {A} (body handler : M W A) :
  creates body [] -> creates handler [] -> creates (try_except body handler) [].
Proof.
  intros Hb Hh st. destruct (Hb st) as (evs & Htr & Hsub).
  unfold try_except. destruct (body st) as [[a|e|] st'] eqn:Hst; simpl in *.
  - by exists evs.
  - destruct (Hh st') as (evs' & Htr' & Hsub').
    exists (evs ++ evs'). rewrite Htr', Htr, <- app_assoc. split; [done|].
    rewrite created_summaries_app.
    apply sublist_nil_r in Hsub, Hsub'. by rewrite Hsub, Hsub'.
  - by exists evs.
Qed.

Lemma creates_for_each {A} (l : list A) (body : A -> M W unit) (f : A -> list string) :
  (forall x, x ∈ l -> creates (body x) (f x)) ->
  creates (for_each l body) (l ≫= f).
Proof.
  induction l as [|x l IH]; intros Hbody; simpl.
  - apply creates_ret.
  - apply creates_bind.
    + apply Hbody. by left.
    + intros _ _ _ _. apply IH. intros y Hy. apply Hbody. by right.
Qed.

Lemma creates_nil_new {A} (m : M W A) st :
  creates m [] -> creations (new_events st (m st).2) = [].
Proof.
  intros Hm. destruct (Hm st) as (evs & Htr & Hsub).
  rewrite (new_events_app _ _ _ Htr).
  apply sublist_nil_r in Hsub. unfold created_summaries in Hsub.
  by apply fmap_nil_inv in Hsub.
Qed.

Lemma creates_distinct_of {A} (m : M W A) L : creates m L -> NoDup L -> creates_distinct m.
Proof.
  intros Hm HL st. destruct (Hm st) as (evs & Htr & Hsub).
  exists evs. split; [done|]. by eapply sublist_NoDup.
Qed.

Lemma creates_distinct_bind_l {A B} (m : M W A) (k : A -> M W B) :
  creates m [] ->
  (forall a st st', m st = (Return a, st') -> creates_distinct (k a)) ->
  creates_distinct (bind m k).
Proof.
  intros Hm Hk st. destruct (Hm st) as (evs & Htr & Hsub).
  apply sublist_nil_r in Hsub.
  unfold bind. destruct (m st) as [[a|e|] st'] eqn:Hst; simpl in *.
  - destruct (Hk a st st' Hst st') as (evs' & Htr' & Hnd).
    exists (evs ++ evs'). rewrite Htr', Htr, <- app_assoc. split; [done|].
    by rewrite created_summaries_app, Hsub.
  - exists evs. split; [done|]. rewrite Hsub. constructor.
  - exists evs. split; [done|]. rewrite Hsub. constructor.
Qed.

Lemma creates_distinct_bind_r {A B} (m : M W A) (k : A -> M W B) :
  creates_distinct m ->
  (forall a, creates (k a) []) ->
  creates_distinct (bind m k).
Proof.
  intros Hm Hk st. destruct (Hm st) as (evs & Htr & Hnd).
  unfold bind. destruct (m st) as [[a|e|] st'] eqn:Hst; simpl in *.
  - destruct (Hk a st') as (evs' & Htr' & Hsub). apply sublist_nil_r in Hsub.
    exists (evs ++ evs'). rewrite Htr', Htr, <- app_assoc. split; [done|].
    by rewrite created_summaries_app, Hsub, app_nil_r.
  - by exists evs.
  - by exists evs.
Qed.

Lemma creates_nil_trace {A} (m : M W A) st :
  creates m [] -> exists evs, trace (m st).2 = trace st ++ evs /\ creations evs = [].
Proof.
  intros Hm. destruct (Hm st) as (evs & Htr & Hsub).
  exists evs. split; [done|].
  apply sublist_nil_r in Hsub. unfold created_summaries in Hsub.
  by apply fmap_nil_inv in Hsub.
Qed.

End Steps.

(** ** Ticket creation *)

Section Creation.

Context {W : Type} (E : environment W).

Lemma format_summary_id failure_id (st : state W) :
  format_summary {[ "failure_id" := failure_id ]} st = (Return (JIRA_SUMMARY +:+ failure_id), st).
Proof.
  unfold format_summary. erewrite bind_return; [done|].
  apply getitem_some, lookup_singleton_eq.
Qed.

(** C2: a failure whose summary is already among the existing tickets gets
    no ticket: [create_jira_ticket] returns [None] after a debug message and
    calls nothing; in the loop body nothing follows the metadata fetch, so
    no watcher is added and no signature is attached. *)
Theorem create_jira_ticket_existing jclient (existing_tickets : gset string)
    failure_id cluster_md (st : state W) :
  JIRA_SUMMARY +:+ failure_id ∈ existing_tickets ->
  create_jira_ticket E jclient existing_tickets failure_id cluster_md st
    = (Return None,
       {| world := world st;
          trace := trace st ++ [EvLog DEBUG "issue found: %s" [LStr (JIRA_SUMMARY +:+ failure_id)]] |})
  /\ forall res w',
       env_requests_get E (metadata_url failure_id) (world st) = (inr res, w') ->
       serves_cluster res cluster_md ->
       cluster_md !! "status" = Some "error" ->
       process_failure E jclient existing_tickets failure_id st
         = (Return tt,
            {| world := w';
               trace := trace st ++ [EvHttpGet (metadata_url failure_id);
                                     EvLog DEBUG "issue found: %s"
                                       [LStr (JIRA_SUMMARY +:+ failure_id)]] |}).
Proof.
  intros Hin.
  assert (Hc : forall st : state W,
    create_jira_ticket E jclient existing_tickets failure_id cluster_md st
    = (Return None,
       {| world := world st;
          trace := trace st ++ [EvLog DEBUG "issue found: %s" [LStr (JIRA_SUMMARY +:+ failure_id)]] |})).
  { intros st0. unfold create_jira_ticket.
    erewrite bind_return by apply format_summary_id.
    rewrite decide_True by done. done. }
  split; [apply Hc|].
  intros res w' Hget (Hst & m & Hjson & Hcl) Herr.
  unfold process_failure, requests_get.
  erewrite bind_return by (by apply perform_return).
  unfold handle_metadata, raise_for_status. rewrite Hst, bind_ret.
  unfold res_json. rewrite Hjson, bind_ret.
  unfold doc_getitem. rewrite Hcl, bind_ret.
  erewrite bind_return by (by apply getitem_some).
  rewrite decide_True by done.
  erewrite bind_return by apply Hc. simpl.
  unfold ret. by rewrite <- app_assoc.
Qed.

Lemma creates_add_watchers jclient i : creates (add_watchers E jclient i) [].
Proof.
  unfold add_watchers.
  apply (creates_for_each DEFAULT_WATCHERS _ (fun _ => [])).
  intros watcher _. apply (creates_perform (EvAddWatcher (key i) watcher)).
Qed.

(** What [create_jira_ticket] does with a summary that is not among the
    existing ones, once the version unpacks and the cluster fields are
    there: it asks for the description, then creates the issue. *)
Lemma create_jira_ticket_new jclient (existing_tickets : gset string) failure_id
    (cluster_md : pydict) (st : state W) version major minor rest user_name
    email_domain cluster_id :
  JIRA_SUMMARY +:+ failure_id ∉ existing_tickets ->
  cluster_md !! "openshift_version" = Some version ->
  PyStr.split "." None version = major :: minor :: rest ->
  cluster_md !! "user_name" = Some user_name ->
  cluster_md !! "email_domain" = Some email_domain ->
  cluster_md !! "id" = Some cluster_id ->
  create_jira_ticket E jclient existing_tickets failure_id cluster_md st
  = bind (perform (EvBuildDescription (LOGS_COLLECTOR +:+ "/files/" +:+ failure_id) cluster_md)
            (env_build_description E jclient (LOGS_COLLECTOR +:+ "/files/" +:+ failure_id)
               cluster_md))
      (fun description =>
         let fields := {| f_project := "MGMT";
                          f_summary := JIRA_SUMMARY +:+ failure_id;
                          f_versions := ["OpenShift " +:+ major +:+ "." +:+ minor];
                          f_components := ["Assisted-installer Triage"];
                          f_priority := "Blocker";
                          f_issuetype := "Bug";
                          f_labels := ["no-qe"; "AI_CLOUD_TRIAGE";
                                       "AI_CLUSTER_" +:+ cluster_id;
                                       "AI_USER_" +:+ user_name;
                                       "AI_DOMAIN_" +:+ email_domain];
                          f_description := description |} in
         new_issue <- perform (EvCreateIssue fields) (env_create_issue E jclient fields) ;;
         log INFO "issue created: %s" [LIssue new_issue] ;;
         add_watchers E jclient new_issue ;;
         ret (Some new_issue)) st.
Proof.
  intros Hnew Hv Hsplit Hu Hd Hi. unfold create_jira_ticket.
  erewrite bind_return by apply format_summary_id.
  rewrite decide_False by done.
  erewrite bind_return by (by apply getitem_some).
  rewrite Hsplit. simpl unpack_major_minor. rewrite bind_ret.
  erewrite bind_return by (by apply getitem_some).
  erewrite bind_return by (by apply getitem_some).
  erewrite bind_return by (by apply getitem_some).
  unfold format_labels.
  rewrite bind_assoc. erewrite bind_return; cycle 1.
  { apply getitem_some. by simplify_map_eq. }
  rewrite bind_assoc. erewrite bind_return; cycle 1.
  { apply getitem_some. by simplify_map_eq. }
  rewrite bind_assoc. erewrite bind_return; cycle 1.
  { apply getitem_some. by simplify_map_eq. }
  rewrite bind_ret. done.
Qed.

(** The creation call and what follows it (lines 87 to 101) add exactly
    one creation to the trace, whatever the tracker answers. *)
Lemma create_issue_once jclient fields (st0 st : state W) pre :
  trace st = trace st0 ++ pre ->
  creations pre = [] ->
  creations (new_events st0
    ((new_issue <- perform (EvCreateIssue fields) (env_create_issue E jclient fields) ;;
      log INFO "issue created: %s" [LIssue new_issue] ;;
      add_watchers E jclient new_issue ;;
      ret (Some new_issue)) st).2) = [fields].
Proof.
  intros Hpre Hquiet. unfold bind at 1. unfold perform.
  destruct (env_create_issue E jclient fields (world st)) as [[e|i] w1]; simpl.
  - rewrite (new_events_app _ _ (pre ++ [EvCreateIssue fields])).
    + by rewrite creations_app, Hquiet.
    + simpl. by rewrite Hpre, <- app_assoc.
  - unfold bind at 1. simpl. unfold bind.
    match goal with |- context [add_watchers E jclient i ?s] => set (st1 := s) end.
    destruct (creates_nil_trace (add_watchers E jclient i) st1 (creates_add_watchers jclient i))
      as (evs & Htr & Hnil).
    assert (Hall : forall st2 : state W, trace st2 = trace st1 ++ evs ->
                     creations (new_events st0 st2) = [fields]).
    { intros st2 H2. subst st1. simpl in H2. rewrite Hpre, <- !app_assoc in H2.
      rewrite (new_events_app _ _ _ H2).
      rewrite !creations_app, Hnil, Hquiet. done. }
    destruct (add_watchers E jclient i st1) as [[[]|e|] st2]; simpl in *; by apply Hall.
Qed.


End Creation.

(** ** The worked example *)

Section Example_abc.

Context {W : Type} (E : environment W).

(** C3: for the failure [2023-01-01_cluster-abc] with the metadata of the
    example and no existing ticket with its summary, once the description
    is built, [create_jira_ticket] makes exactly one [create_issue] call;
    its labels contain [AI_CLUSTER_abc] and its versions field is
    [OpenShift 4.12], made of the first two components of [4.12.3]. *)
Theorem create_jira_ticket_cluster_abc jclient (existing_tickets : gset string)
    (st : state W) description w' :
  "cloud.redhat.com failure: 2023-01-01_cluster-abc" ∉ existing_tickets ->
  env_build_description E jclient (LOGS_COLLECTOR +:+ "/files/2023-01-01_cluster-abc")
    Demo.cluster_abc (world st) = (inr description, w') ->
  exists fields,
    creations (new_events st
      (create_jira_ticket E jclient existing_tickets "2023-01-01_cluster-abc"
         Demo.cluster_abc st).2) = [fields]
    /\ f_summary fields = "cloud.redhat.com failure: 2023-01-01_cluster-abc"
    /\ "AI_CLUSTER_abc" ∈ f_labels fields
    /\ f_versions fields = ["OpenShift 4.12"]
    /\ take 2 (PyStr.split "." None "4.12.3") = ["4"; "12"].
Proof.
  intros Hnew Hdesc.
  exists {| f_project := "MGMT";
            f_summary := "cloud.redhat.com failure: 2023-01-01_cluster-abc";
            f_versions := ["OpenShift 4.12"];
            f_components := ["Assisted-installer Triage"];
            f_priority := "Blocker";
            f_issuetype := "Bug";
            f_labels := ["no-qe"; "AI_CLOUD_TRIAGE"; "AI_CLUSTER_abc"; "AI_USER_alice";
                         "AI_DOMAIN_redhat.com"];
            f_description := description |}.
  split; [|split; [done|split; [set_solver|done]]].
  rewrite (create_jira_ticket_new E jclient existing_tickets "2023-01-01_cluster-abc"
             Demo.cluster_abc st "4.12.3" "4" "12" ["3"] "alice" "redhat.com" "abc");
    [|done..].
  erewrite bind_return by (apply perform_return, Hdesc).
  by eapply (create_issue_once E jclient _ st _ [_]).
Qed.

End Example_abc.

(** ** Pagination of the existing tickets *)

Section Pagination.

Context {W : Type} (E : environment W).

Lemma searches_from (idx n : nat) :
  (fun k => EvSearch query block_size (idx + k * block_size) ["summary"; "key"; "status"])
    <$> seq 0 (S n)
  = EvSearch query block_size idx ["summary"; "key"; "status"]
    :: ((fun k => EvSearch query block_size (idx + block_size + k * block_size)
                    ["summary"; "key"; "status"]) <$> seq 0 n).
Proof.
  rewrite <- cons_seq, fmap_cons, <- fmap_S_seq, <- list_fmap_compose.
  f_equal; [by rewrite Nat.add_0_r|].
  apply list_fmap_ext. intros _ k _. simpl. f_equal. unfold block_size. lia.
Qed.

Lemma summaries_union (pages : list (list issue)) :
  list_to_set (summary <$> concat pages)
  = (⋃ ((fun p => list_to_set (summary <$> p)) <$> pages) : gset string).
Proof.
  induction pages as [|p ps IH]; simpl; [done|].
  by rewrite fmap_app, list_to_set_app_L, IH.
Qed.

(** The loop, started at [idx] with [summaries] and [issues] accumulated,
    on a tracker that serves the non-empty [pages] and then an empty one. *)
Lemma triage_tickets_loop_stops jclient pages :
  Forall nonempty_page pages ->
  forall fuel idx summaries issues w w' tr,
    serves E jclient idx (pages ++ [[]]) w w' ->
    length pages < fuel ->
    triage_tickets_loop E fuel jclient idx summaries issues {| world := w; trace := tr |}
    = (Return (issues ++ concat pages, summaries ++ (summary <$> concat pages)),
       {| world := w';
          trace := tr ++ ((fun k => EvSearch query block_size (idx + k * block_size)
                                      ["summary"; "key"; "status"])
                            <$> seq 0 (S (length pages))) |}).
Proof.
  induction 1 as [|p ps Hp _ IH]; intros fuel idx summaries issues w w' tr Hserves Hfuel.
  - destruct fuel as [|fuel]; [simpl in Hfuel; lia|].
    destruct Hserves as (w1 & Hsearch & <-). simpl.
    erewrite bind_return by (by apply perform_return).
    simpl. unfold ret. by rewrite !app_nil_r, Nat.add_0_r.
  - destruct fuel as [|fuel]; [simpl in Hfuel; lia|].
    destruct Hserves as (w1 & Hsearch & Hrest).
    cbn [triage_tickets_loop].
    erewrite bind_return by (by apply perform_return).
    destruct p as [|i p]; [done|]. cbn [length Nat.eqb].
    rewrite (IH fuel _ _ _ w1 w' _ Hrest) by (simpl in Hfuel; lia).
    cbn [concat length]. rewrite !searches_from, fmap_app, <- !app_assoc. done.
Qed.

(** As long as the pages are not empty the loop goes on: after as many
    iterations as there are pages it has not returned. *)
Lemma triage_tickets_loop_goes_on jclient pages :
  Forall nonempty_page pages ->
  forall idx summaries issues w w' tr,
    serves E jclient idx pages w w' ->
    triage_tickets_loop E (length pages) jclient idx summaries issues
      {| world := w; trace := tr |}
    = (OutOfFuel,
       {| world := w';
          trace := tr ++ ((fun k => EvSearch query block_size (idx + k * block_size)
                                      ["summary"; "key"; "status"])
                            <$> seq 0 (length pages)) |}).
Proof.
  induction 1 as [|p ps Hp _ IH]; intros idx summaries issues w w' tr Hserves.
  - simpl in *. subst. by rewrite app_nil_r.
  - destruct Hserves as (w1 & Hsearch & Hrest).
    cbn [triage_tickets_loop length].
    erewrite bind_return by (by apply perform_return).
    destruct p as [|i p]; [done|]. cbn [length Nat.eqb].
    rewrite (IH _ _ _ w1 w' _ Hrest).
    rewrite !searches_from, <- !app_assoc. done.
Qed.

(** C4: on a tracker that answers the successive searches with the
    non-empty [pages], requested at start indices 0, 100, 200, ...:
    if the next page is empty, [get_all_triage_tickets] returns after that
    search with the issues of all the pages and, as summary set, the union
    of the summaries of the pages; and if only those pages have been
    served it has not returned yet. *)
Theorem get_all_triage_tickets_pages jclient pages w w' tr :
  Forall nonempty_page pages ->
  (serves E jclient 0 (pages ++ [[]]) w w' ->
   forall fuel, length pages < fuel ->
     get_all_triage_tickets E fuel jclient {| world := w; trace := tr |}
     = (Return (concat pages, ⋃ ((fun p => list_to_set (summary <$> p)) <$> pages)),
        {| world := w'; trace := tr ++ searches (S (length pages)) |}))
  /\ (serves E jclient 0 pages w w' ->
      get_all_triage_tickets E (length pages) jclient {| world := w; trace := tr |}
      = (OutOfFuel, {| world := w'; trace := tr ++ searches (length pages) |})).
Proof.
  intros Hpages. split.
  - intros Hserves fuel Hfuel. unfold get_all_triage_tickets.
    erewrite bind_return by (by apply triage_tickets_loop_stops).
    simpl. unfold ret. by rewrite summaries_union.
  - intros Hserves. unfold get_all_triage_tickets, bind.
    by rewrite (triage_tickets_loop_goes_on jclient pages Hpages 0 [] [] w w' tr Hserves).
Qed.

End Pagination.

(** ** The loop over the failure bundles *)

Section Loop.

Context {W : Type} (E : environment W).

Lemma perform_return_inv {A} ev (oracle : W -> (exn + A) * W) (st st' : state W) a :
  perform ev oracle st = (Return a, st') ->
  oracle (world st) = (inr a, world st') /\ trace st' = trace st ++ [ev].
Proof.
  unfold perform. destruct (oracle (world st)) as [[e|b] w']; intros H; by simplify_eq.
Qed.

Lemma getitem_return_inv (d : pydict) k (st st' : state W) v :
  getitem d k st = (Return v, st') -> d !! k = Some v.
Proof. unfold getitem, ret, raise. destruct (d !! k); intros H; by simplify_eq. Qed.

Lemma creates_getitem (d : pydict) k : creates (getitem (W:=W) d k) [].
Proof. unfold getitem. destruct (d !! k); [apply creates_ret|apply creates_raise]. Qed.

Lemma creates_format_labels (d : pydict) : creates (format_labels (W:=W) d) [].
Proof.
  unfold format_labels.
  repeat (apply creates_bind_quiet; [apply creates_getitem|intros ? _ _ _]).
  apply creates_ret.
Qed.

(** [create_jira_ticket] creates at most the ticket of its failure id. *)
Lemma creates_create_jira_ticket jclient (existing_tickets : gset string) failure_id cluster_md :
  creates (create_jira_ticket E jclient existing_tickets failure_id cluster_md)
          [JIRA_SUMMARY +:+ failure_id].
Proof.
  unfold create_jira_ticket, format_summary.
  apply (creates_bind _ _ [] [_]).
  { apply creates_bind_quiet; [apply creates_getitem|]. intros. apply creates_ret. }
  intros summary st st' Hsum.
  assert (summary = JIRA_SUMMARY +:+ failure_id) as ->.
  { unfold bind, getitem in Hsum. rewrite lookup_singleton_eq in Hsum.
    unfold ret in Hsum. by simplify_eq. }
  destruct (decide _).
  { apply (creates_weaken _ []); [apply sublist_nil_l|].
    apply creates_bind_quiet; [apply creates_log|]. intros. apply creates_ret. }
  apply (creates_bind _ _ [] [_]); [apply creates_getitem|]. intros version _ _ _.
  apply (creates_bind _ _ [] [_]).
  { unfold unpack_major_minor. destruct (PyStr.split _ _ _) as [|? [|? ?]];
      first [apply creates_raise|apply creates_ret]. }
  intros mm _ _ _.
  do 3 (apply (creates_bind _ _ [] [_]); [apply creates_getitem|]; intros ? _ _ _).
  apply (creates_bind _ _ [] [_]); [apply creates_format_labels|]. intros labels _ _ _.
  apply (creates_bind _ _ [] [_]); [apply (creates_perform (EvBuildDescription _ _))|].
  intros description _ _ _.
  apply (creates_bind _ _ [_] []); [exact (creates_perform (EvCreateIssue _) _)|].
  intros new_issue _ _ _.
  apply creates_bind_quiet; [apply creates_log|]. intros _ _ _ _.
  apply creates_bind_quiet; [apply creates_add_watchers|]. intros _ _ _ _.
  apply creates_ret.
Qed.

Lemma creates_raise_for_status res : creates (raise_for_status (W:=W) res) [].
Proof.
  unfold raise_for_status. destruct (_ && _); [apply creates_raise|apply creates_ret].
Qed.

Lemma creates_res_json res : creates (res_json (W:=W) res) [].
Proof. unfold res_json. destruct (json res); [apply creates_ret|apply creates_raise]. Qed.

Lemma creates_doc_getitem doc k : creates (doc_getitem (W:=W) doc k) [].
Proof.
  unfold doc_getitem. destruct doc as [l|m]; [apply creates_raise|].
  destruct (m !! k); [apply creates_ret|apply creates_raise].
Qed.

(** What the loop body may create once the metadata has arrived: the
    ticket of the bundle when [can_create] holds, nothing otherwise. *)
Lemma creates_handle_metadata jclient (summaries : gset string) name res (can_create : bool) :
  (can_create = false ->
   forall m md, json res = Some (DocMetadata m) -> m !! "cluster" = Some md ->
                md !! "status" <> Some "error") ->
  creates (handle_metadata E jclient summaries name res)
          (if can_create then [JIRA_SUMMARY +:+ name] else []).
Proof.
  intros Hno. unfold handle_metadata.
  apply creates_bind_quiet; [apply creates_raise_for_status|]. intros _ _ _ _.
  apply creates_bind_quiet; [apply creates_res_json|]. intros doc st1 st1' Hdoc.
  apply creates_bind_quiet; [apply creates_doc_getitem|]. intros cluster st2 st2' Hcl.
  apply creates_bind_quiet; [apply creates_getitem|]. intros cluster_status st3 st3' Hstatus.
  apply getitem_return_inv in Hstatus.
  destruct (decide _) as [->|_]; [|apply (creates_weaken _ []); [apply sublist_nil_l|apply creates_ret]].
  destruct can_create.
  - apply (creates_bind _ _ [_] []); [apply creates_create_jira_ticket|].
    intros [i|] _ _ _; [apply (creates_perform (EvAddSignatures _ _))|apply creates_ret].
  - exfalso. unfold res_json in Hdoc. destruct (json res) as [d|] eqn:Hjson; [|done].
    unfold ret in Hdoc. simplify_eq.
    unfold doc_getitem in Hcl. destruct doc as [l|m]; [done|].
    destruct (m !! "cluster") as [md|] eqn:Hmd; [|done].
    unfold ret in Hcl. simplify_eq.
    by eapply (Hno eq_refl m cluster).
Qed.

Lemma creates_process_failure jclient (summaries : gset string) name (can_create : bool) :
  (can_create = false ->
   forall w res w' m md,
     env_requests_get E (metadata_url name) w = (inr res, w') ->
     json res = Some (DocMetadata m) -> m !! "cluster" = Some md ->
     md !! "status" <> Some "error") ->
  creates (process_failure E jclient summaries name)
          (if can_create then [JIRA_SUMMARY +:+ name] else []).
Proof.
  intros Hno. unfold process_failure, requests_get.
  apply creates_bind_quiet; [apply (creates_perform (EvHttpGet _))|].
  intros res st st' Hget. apply perform_return_inv in Hget as [Hget _].
  apply creates_handle_metadata. intros Hc m md. by eapply Hno.
Qed.

Lemma creates_age_filter arg failure : creates (age_filter E arg failure) [].
Proof.
  unfold age_filter.
  apply creates_bind_quiet.
  { destruct failure; [apply creates_getitem|apply creates_raise]. }
  intros name _ _ _.
  apply creates_bind_quiet.
  { unfold first_item. destruct (PyStr.split _ _ _); [apply creates_raise|apply creates_ret]. }
  intros date _ _ _.
  apply creates_bind_quiet.
  { destruct (negb _); [|apply creates_ret].
    apply creates_bind_quiet; [apply (creates_perform (EvDaysAgo _))|].
    intros. apply creates_ret. }
  intros [] _ _ _; apply creates_ret.
Qed.

(** The age filter hands on the name of the bundle and nothing else. *)
Lemma age_filter_name arg failure (st st' : state W) name :
  age_filter E arg failure st = (Return (Some name), st') -> item_name failure = Some name.
Proof.
  unfold age_filter, bind, item_getitem, ret, raise. destruct failure as [d|s]; [|done].
  unfold getitem, ret, raise. simpl. destruct (d !! "name") as [n|]; [|done]. simpl.
  unfold first_item, ret, raise. destruct (PyStr.split _ _ _) as [|date rest]; [done|]. simpl.
  destruct (negb _).
  - unfold days_ago, perform. destruct (env_days_ago _ _ _) as [[e|days] w']; [done|].
    simpl. destruct (_ <? _)%Z; simpl; intros H; by simplify_eq.
  - simpl. intros H. by simplify_eq.
Qed.

Lemma creates_handle_failure arg jclient (summaries : gset string) failure (can_create : bool) :
  (can_create = false ->
   forall name w res w' m md,
     item_name failure = Some name ->
     env_requests_get E (metadata_url name) w = (inr res, w') ->
     json res = Some (DocMetadata m) -> m !! "cluster" = Some md ->
     md !! "status" <> Some "error") ->
  creates (handle_failure E arg jclient summaries failure)
          (if can_create then (fun name => JIRA_SUMMARY +:+ name) <$> option_list (item_name failure) else []).
Proof.
  intros Hno. unfold handle_failure.
  apply creates_bind_quiet; [apply creates_age_filter|].
  intros [name|] st st' Hage.
  - apply age_filter_name in Hage. rewrite Hage. simpl.
    apply (creates_process_failure _ _ _ can_create). intros Hc w res w' m md. by eapply Hno.
  - apply (creates_weaken _ []); [apply sublist_nil_l|apply creates_ret].
Qed.

(** The creation call and what follows it add exactly one creation to
    the trace. *)
Lemma create_issue_trace jclient fields (st : state W) :
  exists evs,
    trace ((new_issue <- perform (EvCreateIssue fields) (env_create_issue E jclient fields) ;;
            log INFO "issue created: %s" [LIssue new_issue] ;;
            add_watchers E jclient new_issue ;;
            ret (Some new_issue)) st).2 = trace st ++ evs
    /\ creations evs = [fields].
Proof.
  unfold bind at 1. unfold perform.
  destruct (env_create_issue E jclient fields (world st)) as [[e|i] w1]; simpl.
  - by exists [EvCreateIssue fields].
  - unfold bind at 1. simpl. unfold bind.
    match goal with |- context [add_watchers E jclient i ?s] => set (st1 := s) end.
    destruct (creates_nil_trace (add_watchers E jclient i) st1 (creates_add_watchers E jclient i))
      as (evs & Htr & Hnil).
    exists ([EvCreateIssue fields; EvLog INFO "issue created: %s" [LIssue i]] ++ evs).
    split; [|by rewrite creations_app, Hnil].
    assert (Hall : forall st2 : state W, trace st2 = trace st1 ++ evs ->
              trace st2 = trace st ++
                [EvCreateIssue fields; EvLog INFO "issue created: %s" [LIssue i]] ++ evs).
    { intros st2 ->. subst st1. simpl. by rewrite <- !app_assoc. }
    destruct (add_watchers E jclient i st1) as [[[]|e|] st2]; simpl in *; by apply Hall.
Qed.

(** A summary that is not among the existing ones, a cluster with all its
    fields and a description that builds: [create_jira_ticket] makes
    exactly one creation call, with the fields of lines 87 to 97. *)
Lemma create_jira_ticket_creates jclient (existing_tickets : gset string) failure_id
    (cluster_md : pydict) (st : state W) major minor user_name email_domain cluster_id
    description w1 :
  JIRA_SUMMARY +:+ failure_id ∉ existing_tickets ->
  cluster_fields cluster_md major minor user_name email_domain cluster_id ->
  env_build_description E jclient (LOGS_COLLECTOR +:+ "/files/" +:+ failure_id) cluster_md
    (world st) = (inr description, w1) ->
  exists evs,
    trace (create_jira_ticket E jclient existing_tickets failure_id cluster_md st).2
      = trace st ++ evs
    /\ creations evs
       = [expected_fields failure_id major minor user_name email_domain cluster_id
            description].
Proof.
  intros Hnew ((version & rest & Hv & Hsplit) & Hu & Hd & Hi) Hdesc.
  erewrite create_jira_ticket_new by done.
  erewrite bind_return by (apply perform_return, Hdesc). cbn zeta.
  match goal with
  | |- context [bind (perform (EvCreateIssue ?f) _) _ ?s] =>
      destruct (create_issue_trace jclient f s) as (evs & Htr & Hone)
  end.
  exists (EvBuildDescription (LOGS_COLLECTOR +:+ "/files/" +:+ failure_id) cluster_md :: evs).
  split; [|exact Hone].
  rewrite Htr. simpl. by rewrite <- app_assoc.
Qed.

(** The same from the answer to the metadata request on: the cluster is
    in error, so the ticket is created, and what follows the creation
    (the signatures) creates nothing more. *)
Lemma handle_metadata_creates jclient (summaries : gset string) name res (cluster_md : pydict)
    (st : state W) major minor user_name email_domain cluster_id description w1 :
  serves_cluster res cluster_md ->
  cluster_md !! "status" = Some "error" ->
  JIRA_SUMMARY +:+ name ∉ summaries ->
  cluster_fields cluster_md major minor user_name email_domain cluster_id ->
  env_build_description E jclient (LOGS_COLLECTOR +:+ "/files/" +:+ name) cluster_md
    (world st) = (inr description, w1) ->
  exists evs,
    trace (handle_metadata E jclient summaries name res st).2 = trace st ++ evs
    /\ creations evs
       = [expected_fields name major minor user_name email_domain cluster_id description].
Proof.
  intros (Hcode & m & Hjson & Hcluster) Hstatus Hnew Hfields Hdesc.
  destruct (create_jira_ticket_creates jclient summaries name cluster_md st major minor
              user_name email_domain cluster_id description w1 Hnew Hfields Hdesc)
    as (evs & Htr & Hone).
  unfold handle_metadata, raise_for_status. rewrite Hcode, bind_ret.
  unfold res_json. rewrite Hjson, bind_ret.
  unfold doc_getitem. rewrite Hcluster, bind_ret.
  erewrite bind_return by (by apply getitem_some).
  rewrite decide_True by done.
  unfold bind.
  destruct (create_jira_ticket E jclient summaries name cluster_md st)
    as [[[i|]|e|] st1]; simpl in Htr; [|by exists evs..].
  exists (evs ++ [EvAddSignatures (LOGS_COLLECTOR +:+ "/files/" +:+ name) (key i)]).
  split; [|by rewrite creations_app, Hone].
  unfold perform. destruct (env_add_signatures E jclient _ (key i) (world st1)) as [[e|[]] w2];
    simpl; by rewrite Htr, <- app_assoc.
Qed.

(** The loop body on a bundle that is ticketable in the state it is
    reached in, and whose summary is not in the fetched set: exactly one
    creation call, carrying the summary of the bundle, whatever the trace
    already holds. *)
Lemma handle_failure_creates arg jclient (summaries : gset string) failure name
    (st : state W) :
  ticketable E arg jclient failure name st ->
  JIRA_SUMMARY +:+ name ∉ summaries ->
  exists evs,
    trace (handle_failure E arg jclient summaries failure st).2 = trace st ++ evs
    /\ created_summaries evs = [JIRA_SUMMARY +:+ name].
Proof.
  intros (st1 & res & w2 & md & major & minor & user_name & email_domain & cluster_id
          & description & w3 & Hage & Hget & Hserves & Hstatus & Hfields & Hdesc) Hnew.
  destruct (creates_nil_trace (age_filter E arg failure) st (creates_age_filter arg failure))
    as (evs0 & Htr0 & Hnil0).
  rewrite Hage in Htr0. simpl in Htr0.
  unfold handle_failure. erewrite bind_return by apply Hage.
  unfold process_failure, requests_get.
  erewrite bind_return by (by apply perform_return).
  match goal with
  | |- context [handle_metadata E jclient summaries name res ?s] =>
      destruct (handle_metadata_creates jclient summaries name res md s major minor
                  user_name email_domain cluster_id description w3
                  Hserves Hstatus Hnew Hfields Hdesc) as (evs & Htr & Hone)
  end.
  exists (evs0 ++ [EvHttpGet (metadata_url name)] ++ evs).
  split.
  - rewrite Htr. simpl. by rewrite Htr0, <- !app_assoc.
  - unfold created_summaries. by rewrite !creations_app, Hnil0, Hone.
Qed.

(** [create_jira_ticket] creates nothing for a summary that is in the set
    it is given. *)
Lemma creates_create_jira_ticket_fresh jclient (existing_tickets : gset string) failure_id
    cluster_md :
  creates (create_jira_ticket E jclient existing_tickets failure_id cluster_md)
          (filter (fun s => s ∉ existing_tickets) [JIRA_SUMMARY +:+ failure_id]).
Proof.
  destruct (decide (JIRA_SUMMARY +:+ failure_id ∈ existing_tickets)) as [Hin|Hnew].
  - rewrite filter_cons_False by (by intros Hn). rewrite filter_nil.
    intros st. exists [EvLog DEBUG "issue found: %s" [LStr (JIRA_SUMMARY +:+ failure_id)]].
    unfold create_jira_ticket.
    erewrite bind_return by apply format_summary_id.
    rewrite decide_True by done. split; [done|]. apply sublist_nil_l.
  - rewrite filter_cons_True by done. rewrite filter_nil.
    apply creates_create_jira_ticket.
Qed.

Lemma creates_handle_failure_fresh arg jclient (summaries : gset string) failure :
  creates (handle_failure E arg jclient summaries failure)
          (filter (fun s => s ∉ summaries)
             ((fun name => JIRA_SUMMARY +:+ name) <$> option_list (item_name failure))).
Proof.
  unfold handle_failure.
  apply creates_bind_quiet; [apply creates_age_filter|].
  intros [name|] st st' Hage; [|apply (creates_weaken _ []); [apply sublist_nil_l|apply creates_ret]].
  apply age_filter_name in Hage. rewrite Hage. simpl option_list. rewrite fmap_cons, fmap_nil.
  unfold process_failure, requests_get.
  apply creates_bind_quiet; [apply (creates_perform (EvHttpGet _))|]. intros res _ _ _.
  unfold handle_metadata.
  apply creates_bind_quiet; [apply creates_raise_for_status|]. intros _ _ _ _.
  apply creates_bind_quiet; [apply creates_res_json|]. intros doc _ _ _.
  apply creates_bind_quiet; [apply creates_doc_getitem|]. intros cluster _ _ _.
  apply creates_bind_quiet; [apply creates_getitem|]. intros cluster_status _ _ _.
  destruct (decide _); [|apply (creates_weaken _ []); [apply sublist_nil_l|apply creates_ret]].
  rewrite <- (app_nil_r (filter _ _)).
  apply creates_bind; [apply creates_create_jira_ticket_fresh|].
  intros [i|] _ _ _; [apply (creates_perform (EvAddSignatures _ _))|apply creates_ret].
Qed.

End Loop.

(** ** Which bundles are handled *)

Section Filtering.

Context {W : Type} (E : environment W).

Lemma age_filter_all arg (d : pydict) name (st : state W) :
  arg_all arg = true -> d !! "name" = Some name ->
  age_filter E arg (ItemDict d) st = (Return (Some name), st).
Proof.
  intros Hall Hname. unfold age_filter, item_getitem.
  erewrite bind_return by (by apply getitem_some).
  unfold first_item. destruct (PyStr.split "_" None name) as [|date rest] eqn:Hsplit.
  { by apply split_not_nil in Hsplit. }
  rewrite bind_ret, Hall. done.
Qed.

Lemma age_filter_days arg (d : pydict) name date rest (st : state W) days w' :
  arg_all arg = false -> d !! "name" = Some name ->
  PyStr.split "_" None name = date :: rest ->
  env_days_ago E date (world st) = (inr days, w') ->
  age_filter E arg (ItemDict d) st
  = (Return (if (DEFAULT_DAYS_TO_HANDLE <? days)%Z then None else Some name),
     {| world := w'; trace := trace st ++ [EvDaysAgo date] |}).
Proof.
  intros Hall Hname Hsplit Hdays. unfold age_filter, item_getitem.
  erewrite bind_return by (by apply getitem_some).
  rewrite Hsplit. simpl first_item. rewrite bind_ret, Hall. cbn [negb].
  unfold bind, days_ago, perform. rewrite Hdays. simpl.
  by destruct (_ <? _)%Z.
Qed.

(** C5: a bundle whose date prefix (what [split("_")] puts first) is more
    than 30 days old is handled like any other when [--all] is set: the
    loop body is then [process_failure], whatever the age, and the clock is
    not even asked; without the flag the body ends right after the age is
    read, before any request to the collector.  A bundle at most 30 days
    old is handed to [process_failure] in both cases.  [process_failure]
    starts with the request for the metadata, and it does create the
    ticket of the bundle when that metadata describes a cluster in error
    with all its fields, no ticket has the summary yet and the description
    builds. *)
Theorem handle_failure_age_filter arg jclient (summaries : gset string) (d : pydict)
    name date rest (st : state W) :
  d !! "name" = Some name ->
  PyStr.split "_" None name = date :: rest ->
  (arg_all arg = true ->
   handle_failure E arg jclient summaries (ItemDict d) st
   = process_failure E jclient summaries name st)
  /\ (arg_all arg = false ->
      forall days w', env_days_ago E date (world st) = (inr days, w') ->
        let st1 := {| world := w'; trace := trace st ++ [EvDaysAgo date] |} in
        ((DEFAULT_DAYS_TO_HANDLE < days)%Z ->
         handle_failure E arg jclient summaries (ItemDict d) st = (Return tt, st1))
        /\ ((days <= DEFAULT_DAYS_TO_HANDLE)%Z ->
            handle_failure E arg jclient summaries (ItemDict d) st
            = process_failure E jclient summaries name st1))
  /\ (forall st0 : state W, exists evs,
        trace (process_failure E jclient summaries name st0).2
        = trace st0 ++ EvHttpGet (metadata_url name) :: evs)
  /\ (forall (st0 : state W) res w1 cluster_md major minor user_name email_domain
             cluster_id description w2,
        env_requests_get E (metadata_url name) (world st0) = (inr res, w1) ->
        serves_cluster res cluster_md ->
        cluster_md !! "status" = Some "error" ->
        JIRA_SUMMARY +:+ name ∉ summaries ->
        cluster_fields cluster_md major minor user_name email_domain cluster_id ->
        env_build_description E jclient (LOGS_COLLECTOR +:+ "/files/" +:+ name) cluster_md w1
          = (inr description, w2) ->
        creations (new_events st0 (process_failure E jclient summaries name st0).2)
        = [expected_fields name major minor user_name email_domain cluster_id description]).
Proof.
  intros Hname Hsplit. split; [|split; [|split]].
  - intros Hall. unfold handle_failure.
    by erewrite bind_return by (by apply age_filter_all).
  - intros Hall days w' Hdays st1. unfold handle_failure.
    erewrite bind_return by (by eapply age_filter_days).
    split; intros Hcmp.
    + apply Z.ltb_lt in Hcmp. by rewrite Hcmp.
    + apply Z.ltb_ge in Hcmp. by rewrite Hcmp.
  - intros st0. unfold process_failure, requests_get, bind at 1, perform.
    destruct (env_requests_get E (metadata_url name) (world st0)) as [[e|res] w1]; simpl.
    + by exists [].
    + match goal with |- context [handle_metadata E jclient summaries name res ?s] =>
        destruct (creates_handle_metadata E jclient summaries name res true
                    (fun H => False_ind _ (diff_true_false H)) s) as (evs & Htr & _)
      end.
      exists evs. rewrite Htr. simpl. by rewrite <- app_assoc.
  - intros st0 res w1 cluster_md major minor user_name email_domain cluster_id description w2
      Hget Hserves Hstatus Hnew Hfields Hdesc.
    unfold process_failure, requests_get.
    erewrite bind_return by (by apply perform_return).
    match goal with
    | |- context [handle_metadata E jclient summaries name res ?s] =>
        destruct (handle_metadata_creates E jclient summaries name res cluster_md s major
                    minor user_name email_domain cluster_id description w2
                    Hserves Hstatus Hnew Hfields Hdesc) as (evs & Htr & Hone)
    end.
    rewrite (new_events_app st0 _ (EvHttpGet (metadata_url name) :: evs)).
    + exact Hone.
    + rewrite Htr. simpl. by rewrite <- app_assoc.
Qed.

(** C6: when the metadata that the loop body fetches for a bundle (the
    answer to its request in the state the age filter leaves) has a
    cluster status other than "error", the body creates no ticket for it,
    whether or not [--all] is set and whatever its age. *)
Theorem no_ticket_unless_error arg jclient (summaries : gset string) failure (st : state W) :
  (forall name st1 res w' m md,
     age_filter E arg failure st = (Return (Some name), st1) ->
     env_requests_get E (metadata_url name) (world st1) = (inr res, w') ->
     json res = Some (DocMetadata m) ->
     m !! "cluster" = Some md ->
     md !! "status" <> Some "error") ->
  creations (new_events st (handle_failure E arg jclient summaries failure st).2) = [].
Proof.
  intros Hno.
  destruct (creates_nil_trace (age_filter E arg failure) st (creates_age_filter E arg failure))
    as (evs0 & Htr0 & Hnil0).
  unfold handle_failure, bind at 1.
  destruct (age_filter E arg failure st) as [[[name|]|e|] st1] eqn:Hage; simpl in Htr0;
    try (simpl; rewrite (new_events_app st st1 evs0 Htr0); exact Hnil0).
  unfold process_failure, requests_get, bind at 1, perform.
  destruct (env_requests_get E (metadata_url name) (world st1)) as [[e|res] w'] eqn:Hget; simpl.
  - rewrite (new_events_app st _ (evs0 ++ [EvHttpGet (metadata_url name)])).
    + by rewrite creations_app, Hnil0.
    + simpl. by rewrite Htr0, <- app_assoc.
  - match goal with
    | |- context [handle_metadata E jclient summaries name res ?s] =>
        destruct (creates_nil_trace (handle_metadata E jclient summaries name res) s
                    (creates_handle_metadata E jclient summaries name res false
                       (fun _ m md => Hno name st1 res w' m md eq_refl Hget)))
          as (evs & Htr & Hnil)
    end.
    rewrite (new_events_app st _ (evs0 ++ [EvHttpGet (metadata_url name)] ++ evs)).
    + by rewrite !creations_app, Hnil0, Hnil.
    + rewrite Htr. simpl. by rewrite Htr0, <- !app_assoc.
Qed.

End Filtering.

(** ** A run of [main] *)

Section Run.

Context {W : Type} (E : environment W).

Lemma creates_login arg : creates (login E arg) [].
Proof.
  unfold login.
  apply creates_bind_quiet.
  { unfold resolve_credentials. destruct (arg_user_password arg) as [up|].
    - apply creates_try_except.
      + apply creates_bind_quiet; [|intros; apply creates_ret].
        unfold unpack_pair. destruct (PyStr.split _ _ _) as [|? [|? [|? ?]]];
          first [apply creates_raise|apply creates_ret].
      + apply creates_bind_quiet; [apply creates_log|]. intros. apply creates_ret.
    - apply creates_bind_quiet; [|intros; apply creates_ret].
      unfold get_credentials_from_netrc.
      apply creates_bind_quiet; [apply (creates_perform (EvNetrc _ _))|].
      intros [[[u x] pw]|] _ _ _; [apply creates_ret|apply creates_raise]. }
  intros locals _ _ _.
  apply creates_bind_quiet.
  { unfold read_credentials. destruct locals; [apply creates_ret|apply creates_raise]. }
  intros c _ _ _.
  apply creates_bind_quiet; [|intros; apply creates_ret].
  unfold get_jira_client.
  apply creates_bind_quiet; [apply creates_log|]. intros _ _ _ _.
  apply creates_bind_quiet; [apply (creates_perform (EvJiraLogin _ _))|].
  intros. apply creates_ret.
Qed.

Lemma creates_list_failures : creates (list_failures E) [].
Proof.
  unfold list_failures.
  apply creates_bind_quiet.
  { apply creates_try_except; [apply (creates_perform (EvHttpGet _))|].
    apply creates_bind_quiet; [apply creates_log|]. intros. apply creates_raise. }
  intros res _ _ _.
  apply creates_bind_quiet; [apply creates_raise_for_status|]. intros _ _ _ _.
  apply creates_res_json.
Qed.

(** What [list_failures] returns is a document the collector served at
    the listing URL. *)
Lemma list_failures_return (st st' : state W) doc :
  list_failures E st = (Return doc, st') ->
  exists w res w',
    env_requests_get E (LOGS_COLLECTOR +:+ "/files/") w = (inr res, w')
    /\ json res = Some doc.
Proof.
  unfold list_failures, bind at 1, try_except, requests_get, perform.
  destruct (env_requests_get E _ (world st)) as [[e|res] w'] eqn:Hget; [done|].
  simpl. unfold bind, raise_for_status. destruct (_ && _); [done|]. simpl.
  unfold res_json. destruct (json res) as [d|] eqn:Hjson; [|done].
  unfold ret. intros H. simplify_eq. eauto.
Qed.

Lemma creates_triage_tickets_loop fuel jclient idx summaries issues :
  creates (triage_tickets_loop E fuel jclient idx summaries issues) [].
Proof.
  revert idx summaries issues.
  induction fuel as [|fuel IH]; intros idx summaries issues; simpl.
  - apply creates_out_of_fuel.
  - apply creates_bind_quiet; [apply (creates_perform (EvSearch _ _ _ _))|].
    intros issues_bulk _ _ _. destruct (_ =? _); [apply creates_ret|apply IH].
Qed.

Lemma creates_get_all_triage_tickets fuel jclient :
  creates (get_all_triage_tickets E fuel jclient) [].
Proof.
  unfold get_all_triage_tickets.
  apply creates_bind_quiet; [apply creates_triage_tickets_loop|].
  intros. apply creates_ret.
Qed.

Lemma creates_close_tickets arg jclient username issues :
  creates (close_tickets E arg jclient username issues) [].
Proof.
  unfold close_tickets. destruct (arg_filters_json arg) as [path|]; [|apply creates_ret].
  destruct (decide _); [apply creates_ret|apply (creates_perform (EvRunUsingJson _ _ _))].
Qed.

Lemma bind_summaries (items : list item) :
  items ≫= (fun failure =>
              (fun name => JIRA_SUMMARY +:+ name) <$> option_list (item_name failure))
  = (fun name => JIRA_SUMMARY +:+ name) <$> omap item_name items.
Proof.
  induction items as [|failure items IH]; [done|].
  cbn [mbind list_bind omap list_omap]. rewrite IH.
  by destruct (item_name failure).
Qed.

(** The loop creates, in order, tickets for some of the listed names. *)
Lemma creates_failures_loop arg jclient (summaries : gset string) failed_clusters :
  creates (failures_loop E arg jclient summaries failed_clusters)
          ((fun name => JIRA_SUMMARY +:+ name) <$> omap item_name (iterate failed_clusters)).
Proof.
  unfold failures_loop. rewrite <- bind_summaries.
  apply creates_for_each. intros failure _.
  by apply (creates_handle_failure E arg jclient summaries failure true).
Qed.

Lemma summary_prefix_inj : Inj (=) (=) (fun name => JIRA_SUMMARY +:+ name).
Proof. intros a b. apply summary_inj. Qed.

Lemma bind_assoc_for_each_app {A B} (l1 l2 : list A) (body : A -> M W unit)
    (k : unit -> M W B) st :
  bind (for_each (l1 ++ l2) body) k st
  = bind (for_each l1 body) (fun _ => bind (for_each l2 body) k) st.
Proof.
  transitivity (bind (bind (for_each l1 body) (fun _ => for_each l2 body)) k st).
  - unfold bind at 1 2. by rewrite for_each_app.
  - apply bind_assoc.
Qed.

Lemma bind_out_of_fuel {A B} (m : M W A) (k : A -> M W B) st st' :
  m st = (OutOfFuel, st') -> bind m k st = (OutOfFuel, st').
Proof. unfold bind. by intros ->. Qed.

Lemma bind_fresh_summaries (P : string -> Prop) `{forall s, Decision (P s)} (items : list item) :
  items ≫= (fun failure =>
              filter P ((fun name => JIRA_SUMMARY +:+ name)
                          <$> option_list (item_name failure)))
  = filter P ((fun name => JIRA_SUMMARY +:+ name) <$> omap item_name items).
Proof.
  induction items as [|failure items IH]; [done|].
  cbn [mbind list_bind omap list_omap]. rewrite IH.
  destruct (item_name failure) as [name|]; [|done].
  rewrite <- filter_app. reflexivity.
Qed.

(** The loop creates, in order, tickets for some of the listed names
    whose summary is not in the set it was given. *)
Lemma creates_failures_loop_fresh arg jclient (summaries : gset string) failed_clusters :
  creates (failures_loop E arg jclient summaries failed_clusters)
          (filter (fun s => s ∉ summaries)
             ((fun name => JIRA_SUMMARY +:+ name) <$> omap item_name (iterate failed_clusters))).
Proof.
  unfold failures_loop. rewrite <- bind_fresh_summaries.
  apply creates_for_each. intros failure _. apply creates_handle_failure_fresh.
Qed.

(** What a run creates: nothing, unless the client, the listing and the
    existing tickets were obtained; then it creates, in order, tickets for
    some of the listed names whose summary is not in the fetched set. *)
Lemma main_created fuel arg (st : state W) :
  created_summaries (new_events st (main E fuel arg st).2) = []
  \/ exists username jclient st1 failed_clusters st2 issues summaries st3,
       login E arg st = (Return (username, jclient), st1)
       /\ list_failures E st1 = (Return failed_clusters, st2)
       /\ get_all_triage_tickets E fuel jclient st2 = (Return (issues, summaries), st3)
       /\ created_summaries (new_events st (main E fuel arg st).2)
          `sublist_of` filter (fun s => s ∉ summaries)
                         ((fun name => JIRA_SUMMARY +:+ name)
                            <$> omap item_name (iterate failed_clusters)).
Proof.
  assert (Hquiet : forall (st' : state W) evs,
            trace st' = trace st ++ evs -> creations evs = [] ->
            created_summaries (new_events st st') = []).
  { intros st' evs Htr Hnil. rewrite (new_events_app _ _ _ Htr).
    unfold created_summaries. by rewrite Hnil. }
  destruct (creates_nil_trace (login E arg) st (creates_login arg)) as (e1 & T1 & N1).
  unfold main.
  destruct (login E arg st) as [[[username jclient]|e|] st1] eqn:Hlogin; simpl in T1;
    [|left; erewrite ?bind_raised, ?bind_out_of_fuel by done; by eapply Hquiet..].
  erewrite bind_return by done. cbn [fst snd].
  destruct (creates_nil_trace (list_failures E) st1 creates_list_failures) as (e2 & T2 & N2).
  assert (T2' : trace (list_failures E st1).2 = trace st ++ e1 ++ e2)
    by (by rewrite T2, T1, <- app_assoc).
  assert (N2' : creations (e1 ++ e2) = []) by (by rewrite creations_app, N1, N2).
  clear T2 N2.
  destruct (list_failures E st1) as [[failed_clusters|e|] st2] eqn:Hlist; simpl in T2';
    [|left; erewrite ?bind_raised, ?bind_out_of_fuel by done; by eapply Hquiet..].
  erewrite bind_return by done.
  destruct (creates_nil_trace (get_all_triage_tickets E fuel jclient) st2
              (creates_get_all_triage_tickets fuel jclient)) as (e3 & T3 & N3).
  assert (T3' : trace (get_all_triage_tickets E fuel jclient st2).2
                = trace st ++ (e1 ++ e2) ++ e3)
    by (by rewrite T3, T2', <- !app_assoc).
  assert (N3' : creations ((e1 ++ e2) ++ e3) = []) by (by rewrite creations_app, N2', N3).
  clear T3 N3.
  destruct (get_all_triage_tickets E fuel jclient st2) as [[[issues summaries]|e|] st3]
    eqn:Htickets; simpl in T3';
    [|left; erewrite ?bind_raised, ?bind_out_of_fuel by done; by eapply Hquiet..].
  erewrite bind_return by done. cbn [fst snd].
  destruct (decide (issues = [])) as [Hnone|Hsome].
  { left. rewrite bind_raise. by eapply Hquiet. }
  right. exists username, jclient, st1, failed_clusters, st2, issues, summaries, st3.
  split; [done|]. split; [done|]. split; [done|].
  rewrite bind_ret.
  destruct (creates_bind (failures_loop E arg jclient summaries failed_clusters)
              (fun _ => close_tickets E arg jclient username issues) _ []
              (creates_failures_loop_fresh arg jclient summaries failed_clusters)
              (fun _ _ _ _ => creates_close_tickets arg jclient username issues) st3)
    as (e4 & T4 & S4).
  rewrite app_nil_r in S4.
  rewrite (new_events_app st _ (((e1 ++ e2) ++ e3) ++ e4)).
  - unfold created_summaries in *. by rewrite creations_app, N3'.
  - by rewrite T4, T3', <- !app_assoc.
Qed.

(** The trace only grows along the rest of the loop and the closing
    step. *)
Lemma loop_then_close_grows arg jclient (summaries : gset string) username issues
    (items : list item) (st : state W) :
  exists evs,
    trace ((for_each items (handle_failure E arg jclient summaries) ;;
            close_tickets E arg jclient username issues) st).2 = trace st ++ evs.
Proof.
  destruct (creates_bind (for_each items (handle_failure E arg jclient summaries))
              (fun _ => close_tickets E arg jclient username issues) _ []
              (creates_for_each items _ _
                 (fun failure _ => creates_handle_failure_fresh E arg jclient summaries failure))
              (fun _ _ _ _ => creates_close_tickets arg jclient username issues) st)
    as (evs & Htr & _).
  by exists evs.
Qed.

Lemma for_each_grows arg jclient (summaries : gset string) (items : list item)
    (st : state W) :
  exists evs,
    trace (for_each items (handle_failure E arg jclient summaries) st).2 = trace st ++ evs.
Proof.
  destruct (creates_for_each items _ _
              (fun failure _ => creates_handle_failure_fresh E arg jclient summaries failure) st)
    as (evs & Htr & _).
  by exists evs.
Qed.

(** C1, as the code has it.  Of a run of [main]:
    - when the listing it obtained has no name twice, no two
      [create_issue] calls carry the same summary;
    - every [create_issue] call carries the formatted summary of a listed
      name, and that summary is not in the set fetched at the start of
      the run: membership in that set is what is tested;
    - that set is all that is tested, and it is never extended: a bundle
      listed twice, ticketable each time it is reached and with a summary
      that is not in the set, is ticketed twice. *)
Theorem tickets_created_once fuel arg (st : state W) :
  ((forall username jclient st1 failed_clusters st2,
      login E arg st = (Return (username, jclient), st1) ->
      list_failures E st1 = (Return failed_clusters, st2) ->
      NoDup (omap item_name (iterate failed_clusters))) ->
   NoDup (created_summaries (new_events st (main E fuel arg st).2)))
  /\ (forall s,
        s ∈ created_summaries (new_events st (main E fuel arg st).2) ->
        exists username jclient st1 failed_clusters st2 issues summaries st3 name,
          login E arg st = (Return (username, jclient), st1)
          /\ list_failures E st1 = (Return failed_clusters, st2)
          /\ get_all_triage_tickets E fuel jclient st2 = (Return (issues, summaries), st3)
          /\ name ∈ omap item_name (iterate failed_clusters)
          /\ s = JIRA_SUMMARY +:+ name
          /\ s ∉ summaries)
  /\ (forall username jclient st1 failed_clusters st2 issues summaries st3
             pre failure mid post name sa sb sc,
        login E arg st = (Return (username, jclient), st1) ->
        list_failures E st1 = (Return failed_clusters, st2) ->
        get_all_triage_tickets E fuel jclient st2 = (Return (issues, summaries), st3) ->
        issues <> [] ->
        iterate failed_clusters = pre ++ failure :: mid ++ failure :: post ->
        JIRA_SUMMARY +:+ name ∉ summaries ->
        for_each pre (handle_failure E arg jclient summaries) st3 = (Return tt, sa) ->
        ticketable E arg jclient failure name sa ->
        handle_failure E arg jclient summaries failure sa = (Return tt, sb) ->
        for_each mid (handle_failure E arg jclient summaries) sb = (Return tt, sc) ->
        ticketable E arg jclient failure name sc ->
        exists l1 l2 l3,
          created_summaries (new_events st (main E fuel arg st).2)
          = l1 ++ (JIRA_SUMMARY +:+ name) :: l2 ++ (JIRA_SUMMARY +:+ name) :: l3).
Proof.
  split; [|split].
  - intros Hlisting.
    destruct (main_created fuel arg st)
      as [->|(username & jclient & st1 & failed_clusters & st2 & issues & summaries & st3
              & Hlogin & Hlist & _ & Hsub)]; [constructor|].
    eapply sublist_NoDup; [|exact Hsub].
    apply NoDup_filter, (@NoDup_fmap_2 _ _ _ summary_prefix_inj).
    by eapply Hlisting.
  - intros s Hs.
    destruct (main_created fuel arg st)
      as [Hnil|(username & jclient & st1 & failed_clusters & st2 & issues & summaries & st3
                & Hlogin & Hlist & Htickets & Hsub)].
    { rewrite Hnil in Hs. by apply elem_of_nil in Hs. }
    eapply elem_of_sublist in Hs; [|exact Hsub].
    apply list_elem_of_filter in Hs as [Hnew Hs].
    apply list_elem_of_fmap in Hs as (name & -> & Hname).
    exists username, jclient, st1, failed_clusters, st2, issues, summaries, st3, name.
    done.
  - intros username jclient st1 failed_clusters st2 issues summaries st3
      pre failure mid post name sa sb sc
      Hlogin Hlist Htickets Hissues Hiter Hnew Hpre Hfirst_ok Hfirst Hmid Hsecond_ok.
    destruct (creates_nil_trace (login E arg) st (creates_login arg)) as (e1 & T1 & N1).
    rewrite Hlogin in T1. simpl in T1.
    destruct (creates_nil_trace (list_failures E) st1 creates_list_failures) as (e2 & T2 & N2).
    rewrite Hlist in T2. simpl in T2.
    destruct (creates_nil_trace (get_all_triage_tickets E fuel jclient) st2
                (creates_get_all_triage_tickets fuel jclient)) as (e3 & T3 & N3).
    rewrite Htickets in T3. simpl in T3.
    destruct (for_each_grows arg jclient summaries pre st3) as (ea & Ta).
    rewrite Hpre in Ta. simpl in Ta.
    destruct (handle_failure_creates E arg jclient summaries failure name sa Hfirst_ok Hnew)
      as (eb & Tb & Cb).
    rewrite Hfirst in Tb. simpl in Tb.
    destruct (for_each_grows arg jclient summaries mid sb) as (ec & Tc).
    rewrite Hmid in Tc. simpl in Tc.
    destruct (handle_failure_creates E arg jclient summaries failure name sc Hsecond_ok Hnew)
      as (ed & Td & Cd).
    assert (Hmain : main E fuel arg st
              = bind (handle_failure E arg jclient summaries failure)
                  (fun _ => for_each post (handle_failure E arg jclient summaries) ;;
                            close_tickets E arg jclient username issues) sc).
    { unfold main.
      erewrite bind_return by apply Hlogin.
      erewrite bind_return by apply Hlist.
      erewrite bind_return by apply Htickets.
      cbn [fst snd]. rewrite decide_False by done. rewrite bind_ret.
      unfold failures_loop. rewrite Hiter.
      rewrite bind_assoc_for_each_app.
      erewrite bind_return by apply Hpre.
      cbn [for_each]. rewrite bind_assoc.
      erewrite bind_return by apply Hfirst.
      rewrite bind_assoc_for_each_app.
      erewrite bind_return by apply Hmid.
      cbn [for_each]. by rewrite bind_assoc. }
    assert (Hend : exists er,
              trace (main E fuel arg st).2
              = trace (handle_failure E arg jclient summaries failure sc).2 ++ er).
    { rewrite Hmain. unfold bind at 1.
      destruct (handle_failure E arg jclient summaries failure sc) as [[[]|e|] sd]; simpl.
      - apply loop_then_close_grows.
      - exists []. by rewrite app_nil_r.
      - exists []. by rewrite app_nil_r. }
    destruct Hend as (er & Tr).
    exists (created_summaries ea), (created_summaries ec), (created_summaries er).
    rewrite (new_events_app st _ (((e1 ++ e2) ++ e3) ++ ea ++ eb ++ ec ++ ed ++ er)).
    + rewrite !created_summaries_app, Cb, Cd.
      unfold created_summaries at 1 2 3. by rewrite N1, N2, N3.
    + rewrite Tr, Td, Tc, Tb, Ta, T3, T2, T1, <- !app_assoc. done.
Qed.

(** C7: an exception raised by the request for the listing is caught: it is
    logged and the run ends with [SystemExit 1].  An error of the request
    for a bundle's metadata inside the loop, be it an exception of the
    request or an error status, is not caught: it ends the run right there,
    whatever bundles follow in the list. *)
Theorem http_errors_asymmetric fuel arg (st : state W) username jclient st1 :
  login E arg st = (Return (username, jclient), st1) ->
  (forall e w',
     env_requests_get E (LOGS_COLLECTOR +:+ "/files/") (world st1) = (inl e, w') ->
     main E fuel arg st
     = (Raise (SystemExit 1),
        {| world := w';
           trace := trace st1 ++ [EvHttpGet (LOGS_COLLECTOR +:+ "/files/");
                                  EvLog EXCEPTION "Error getting list of failed clusters" []] |}))
  /\ (forall failed_clusters st2 issues summaries st3 pre failure post st4 name st5 r e w',
        list_failures E st1 = (Return failed_clusters, st2) ->
        get_all_triage_tickets E fuel jclient st2 = (Return (issues, summaries), st3) ->
        issues <> [] ->
        iterate failed_clusters = pre ++ failure :: post ->
        for_each pre (handle_failure E arg jclient summaries) st3 = (Return tt, st4) ->
        age_filter E arg failure st4 = (Return (Some name), st5) ->
        env_requests_get E (metadata_url name) (world st5) = (r, w') ->
        (r = inl e
         \/ exists res, r = inr res
                        /\ (400 <=? status_code res) && (status_code res <? 600) = true
                        /\ e = HTTPError (status_code res)) ->
        main E fuel arg st
        = (Raise e, {| world := w'; trace := trace st5 ++ [EvHttpGet (metadata_url name)] |})).
Proof.
  intros Hlogin. split.
  - intros e w' Hget. unfold main.
    erewrite bind_return by apply Hlogin.
    erewrite bind_raised; [done|].
    unfold list_failures. erewrite bind_raised; [done|].
    unfold try_except, requests_get.
    erewrite perform_raise by apply Hget.
    unfold bind, log, raise. simpl. by rewrite <- app_assoc.
  - intros failed_clusters st2 issues summaries st3 pre failure post st4 name st5 r e w'
      Hlist Htickets Hissues Hiter Hpre Hage Hget Herr.
    unfold main.
    erewrite bind_return by apply Hlogin.
    erewrite bind_return by apply Hlist.
    erewrite bind_return by apply Htickets.
    cbn [fst snd]. rewrite decide_False by done. rewrite bind_ret.
    erewrite bind_raised; [done|].
    unfold failures_loop. rewrite Hiter, for_each_app.
    erewrite bind_return by apply Hpre.
    simpl. erewrite bind_raised; [done|].
    unfold handle_failure. erewrite bind_return by apply Hage.
    unfold process_failure, requests_get.
    destruct Herr as [->|(res & -> & Hcode & ->)].
    + erewrite bind_raised; [done|]. by apply perform_raise.
    + erewrite bind_return by (by apply perform_return).
      unfold handle_metadata, raise_for_status. rewrite Hcode. done.
Qed.

(** C8: when the pagination returns no issue at all, [main] raises
    [ConnectionError] in the state the pagination left: the loop over the
    failure bundles is never entered. *)
Theorem no_issues_is_an_error fuel arg (st : state W) username jclient st1
    failed_clusters st2 summaries st3 :
  login E arg st = (Return (username, jclient), st1) ->
  list_failures E st1 = (Return failed_clusters, st2) ->
  get_all_triage_tickets E fuel jclient st2 = (Return ([], summaries), st3) ->
  main E fuel arg st = (Raise (ConnectionError "Failed to get any issues from JIRA"), st3).
Proof.
  intros Hlogin Hlist Htickets. unfold main.
  erewrite bind_return by apply Hlogin.
  erewrite bind_return by apply Hlist.
  erewrite bind_return by apply Htickets.
  cbn [fst snd]. rewrite decide_True by done. done.
Qed.

(** C9, as the code has it: a credential string without ":" makes the
    unpacking raise; the exception is caught and an error is logged, so
    the credential step itself returns, with [username] and [password]
    left unassigned.  The next statement reads [username] and raises
    [UnboundLocalError]: the run ends there, with the log message as its
    only event and no call to the tracker or to the collector. *)
Theorem unparsed_credentials_abort fuel arg (st : state W) user_password :
  arg_user_password arg = Some user_password ->
  PyStr.contains ":" user_password = false ->
  let st1 := {| world := world st;
                trace := trace st ++ [EvLog ERROR "Failed to parse user:password" []] |} in
  resolve_credentials E arg st = (Return None, st1)
  /\ main E fuel arg st = (Raise (UnboundLocalError "username"), st1).
Proof.
  intros Hup Hcolon st1.
  assert (Hstep : resolve_credentials E arg st = (Return None, st1)).
  { unfold resolve_credentials. rewrite Hup.
    unfold try_except. rewrite (split_without_sep _ _ _ Hcolon). simpl. done. }
  split; [exact Hstep|].
  unfold main. erewrite bind_raised; [done|].
  unfold login. erewrite bind_return by apply Hstep. done.
Qed.

End Run.


(** ** The theorems at concrete inputs *)

Lemma cluster_abc_fields : cluster_fields Demo.cluster_abc "4" "12" "alice" "redhat.com" "abc".
Proof.
  split; [exists "4.12.3", ["3"]; split; reflexivity|].
  split; [reflexivity|]. split; reflexivity.
Defined.

Lemma abc_not_ticketed : JIRA_SUMMARY +:+ "2023-01-01_cluster-abc" ∉ Demo.existing_other.
Proof. intros Hin. apply elem_of_singleton in Hin. discriminate Hin. Defined.

Lemma create_jira_ticket_existing_witness :
  JIRA_SUMMARY +:+ "2023-01-01_cluster-abc" ∈ Demo.existing_abc
  /\ (create_jira_ticket Demo.ticketed Demo.jclient Demo.existing_abc
        "2023-01-01_cluster-abc" Demo.cluster_abc Demo.init).1 = Return None
  /\ (process_failure Demo.ticketed Demo.jclient Demo.existing_abc
        "2023-01-01_cluster-abc" Demo.init).1 = Return tt.
Proof.
  assert (Hin : JIRA_SUMMARY +:+ "2023-01-01_cluster-abc" ∈ Demo.existing_abc)
    by (apply elem_of_singleton; reflexivity).
  destruct (create_jira_ticket_existing Demo.ticketed Demo.jclient Demo.existing_abc
              "2023-01-01_cluster-abc" Demo.cluster_abc Demo.init Hin)
    as [Hcreate Hprocess].
  split; [exact Hin|]. split; [by rewrite Hcreate|].
  erewrite Hprocess; [reflexivity|reflexivity| |reflexivity].
  split; [reflexivity|]. eexists. split; reflexivity.
Defined.

Lemma create_jira_ticket_cluster_abc_witness :
  ("cloud.redhat.com failure: 2023-01-01_cluster-abc" ∉ Demo.existing_other)
  /\ exists fields,
       creations (new_events Demo.init
         (create_jira_ticket Demo.fresh Demo.jclient Demo.existing_other
            "2023-01-01_cluster-abc" Demo.cluster_abc Demo.init).2) = [fields]
       /\ "AI_CLUSTER_abc" ∈ f_labels fields
       /\ f_versions fields = ["OpenShift 4.12"].
Proof.
  assert (Hnew : "cloud.redhat.com failure: 2023-01-01_cluster-abc" ∉ Demo.existing_other).
  { intros Hin. apply elem_of_singleton in Hin. discriminate Hin. }
  split; [exact Hnew|].
  destruct (create_jira_ticket_cluster_abc Demo.fresh Demo.jclient Demo.existing_other
              Demo.init _ tt Hnew eq_refl)
    as (fields & Hone & _ & Hlabel & Hversion & _).
  exists fields. split; [exact Hone|]. split; [exact Hlabel|exact Hversion].
Defined.


Lemma get_all_triage_tickets_pages_witness :
  Forall nonempty_page [[Demo.other_ticket]; [Demo.ticket_abc]]
  /\ serves Demo.two_pages Demo.jclient 0
       ([[Demo.other_ticket]; [Demo.ticket_abc]] ++ [[]]) tt tt
  /\ get_all_triage_tickets Demo.two_pages 3 Demo.jclient Demo.init
     = (Return ([Demo.other_ticket; Demo.ticket_abc],
                {[ summary Demo.other_ticket ]} ∪ ({[ summary Demo.ticket_abc ]} ∪ ∅)),
        {| world := tt; trace := searches 3 |})
  /\ (get_all_triage_tickets Demo.two_pages 2 Demo.jclient Demo.init).1 = OutOfFuel.
Proof.
  set (pages := [[Demo.other_ticket]; [Demo.ticket_abc]]).
  assert (Hpages : Forall nonempty_page pages) by (repeat constructor; discriminate).
  assert (Hall : serves Demo.two_pages Demo.jclient 0 (pages ++ [[]]) tt tt).
  { simpl. repeat (eexists; split; [reflexivity|]). reflexivity. }
  assert (Hsome : serves Demo.two_pages Demo.jclient 0 pages tt tt).
  { simpl. repeat (eexists; split; [reflexivity|]). reflexivity. }
  destruct (get_all_triage_tickets_pages Demo.two_pages Demo.jclient pages tt tt [] Hpages)
    as [Hstop Hon].
  split; [exact Hpages|]. split; [exact Hall|]. split.
  - unfold Demo.init. rewrite (Hstop Hall 3) by (simpl; lia). reflexivity.
  - unfold Demo.init. change 2 with (length pages). rewrite (Hon Hsome). reflexivity.
Defined.

Lemma handle_failure_age_filter_witness :
  Demo.failure_abc !! "name" = Some "2023-01-01_cluster-abc"
  /\ PyStr.split "_" None "2023-01-01_cluster-abc" = ["2023-01-01"; "cluster-abc"]
  /\ handle_failure Demo.old (Demo.cli None true) Demo.jclient Demo.existing_other
       (ItemDict Demo.failure_abc) Demo.init
     = process_failure Demo.old Demo.jclient Demo.existing_other
         "2023-01-01_cluster-abc" Demo.init
  /\ creations (new_events Demo.init
       (handle_failure Demo.old (Demo.cli None true) Demo.jclient Demo.existing_other
          (ItemDict Demo.failure_abc) Demo.init).2)
     = [expected_fields "2023-01-01_cluster-abc" "4" "12" "alice" "redhat.com" "abc"
          ("logs: " +:+ LOGS_COLLECTOR +:+ "/files/2023-01-01_cluster-abc")]
  /\ handle_failure Demo.old (Demo.cli None false) Demo.jclient Demo.existing_other
       (ItemDict Demo.failure_abc) Demo.init
     = (Return tt, {| world := tt; trace := [EvDaysAgo "2023-01-01"] |}).
Proof.
  assert (Hname : Demo.failure_abc !! "name" = Some "2023-01-01_cluster-abc")
    by reflexivity.
  assert (Hsplit : PyStr.split "_" None "2023-01-01_cluster-abc"
                   = ["2023-01-01"; "cluster-abc"]) by reflexivity.
  assert (Hserves : serves_cluster
            (Demo.ok_response (DocMetadata {[ "cluster" := Demo.cluster_abc ]}))
            Demo.cluster_abc).
  { split; [reflexivity|]. eexists. split; reflexivity. }
  destruct (handle_failure_age_filter Demo.old (Demo.cli None true) Demo.jclient
              Demo.existing_other Demo.failure_abc _ _ _ Demo.init Hname Hsplit)
    as (Hall & _ & _ & Hticket).
  destruct (handle_failure_age_filter Demo.old (Demo.cli None false) Demo.jclient
              Demo.existing_other Demo.failure_abc _ _ _ Demo.init Hname Hsplit)
    as (_ & Hdays & _).
  split; [exact Hname|]. split; [exact Hsplit|].
  split; [exact (Hall eq_refl)|]. split.
  - rewrite (Hall eq_refl).
    exact (Hticket Demo.init _ tt Demo.cluster_abc "4" "12" "alice" "redhat.com" "abc" _ tt
             eq_refl Hserves eq_refl abc_not_ticketed cluster_abc_fields eq_refl).
  - destruct (Hdays eq_refl 400%Z tt eq_refl) as [Hold _].
    apply Hold. unfold DEFAULT_DAYS_TO_HANDLE. lia.
Defined.

Lemma no_ticket_unless_error_witness :
  Demo.cluster_installed !! "status" = Some "installed"
  /\ creations (new_events Demo.first_answer
       (handle_failure Demo.changing (Demo.cli None true) Demo.jclient
          Demo.existing_other (ItemDict Demo.failure_abc) Demo.first_answer).2) = []
  /\ creations (new_events Demo.first_answer
       (handle_failure Demo.changing (Demo.cli None false) Demo.jclient
          Demo.existing_other (ItemDict Demo.failure_abc) Demo.first_answer).2) = []
  /\ created_summaries (new_events Demo.second_answer
       (handle_failure Demo.changing (Demo.cli None true) Demo.jclient
          Demo.existing_other (ItemDict Demo.failure_abc) Demo.second_answer).2)
     = ["cloud.redhat.com failure: 2023-01-01_cluster-abc"].
Proof.
  assert (Hno : forall all name st1 res w' m md,
            age_filter Demo.changing (Demo.cli None all) (ItemDict Demo.failure_abc)
              Demo.first_answer = (Return (Some name), st1) ->
            env_requests_get Demo.changing (metadata_url name) (world st1) = (inr res, w') ->
            json res = Some (DocMetadata m) ->
            m !! "cluster" = Some md ->
            md !! "status" <> Some "error").
  { intros all name st1 res w' m md Hage Hget Hjson Hcluster.
    assert (Hworld : world st1 = 0).
    { destruct all; vm_compute in Hage; by injection Hage as _ <-. }
    simpl in Hget. rewrite Hworld in Hget. injection Hget as <- _.
    simpl in Hjson. injection Hjson as <-.
    rewrite lookup_singleton_eq in Hcluster. injection Hcluster as <-.
    discriminate. }
  split; [reflexivity|].
  split; [exact (no_ticket_unless_error Demo.changing (Demo.cli None true) Demo.jclient
                   Demo.existing_other (ItemDict Demo.failure_abc) Demo.first_answer
                   (Hno true))|].
  split; [exact (no_ticket_unless_error Demo.changing (Demo.cli None false) Demo.jclient
                   Demo.existing_other (ItemDict Demo.failure_abc) Demo.first_answer
                   (Hno false))|].
  reflexivity.
Defined.

Lemma http_errors_asymmetric_witness :
  (main Demo.down 5 Demo.alice Demo.init).1 = Raise (SystemExit 1)
  /\ (main Demo.broken 5 Demo.alice Demo.init).1 = Raise (HTTPError 500)
  /\ last (trace (main Demo.broken 5 Demo.alice Demo.init).2)
     = Some (EvHttpGet (metadata_url "2023-01-01_cluster-abc")).
Proof.
  split.
  - destruct (http_errors_asymmetric Demo.down 5 Demo.alice Demo.init "alice"
                Demo.jclient _ eq_refl) as [Hlisting _].
    by rewrite (Hlisting _ tt eq_refl).
  - destruct (http_errors_asymmetric Demo.broken 5 Demo.alice Demo.init "alice"
                Demo.jclient _ eq_refl) as [_ Hfetch].
    assert (Hrun := Hfetch (DocFiles [Demo.failure_abc; Demo.failure_abc]) _
                      [Demo.other_ticket] Demo.existing_other _
                      [] (ItemDict Demo.failure_abc) [ItemDict Demo.failure_abc] _
                      "2023-01-01_cluster-abc" _ _ (HTTPError 500) tt
                      eq_refl eq_refl ltac:(discriminate) eq_refl eq_refl eq_refl eq_refl
                      (or_intror (ex_intro _ _ (conj eq_refl (conj eq_refl eq_refl))))).
    rewrite Hrun. split; reflexivity.
Defined.

Lemma no_issues_is_an_error_witness :
  (get_all_triage_tickets Demo.no_tickets 5 Demo.jclient Demo.init).1 = Return ([], ∅)
  /\ (main Demo.no_tickets 5 Demo.alice Demo.init).1
     = Raise (ConnectionError "Failed to get any issues from JIRA")
  /\ trace (main Demo.no_tickets 5 Demo.alice Demo.init).2
     = [EvLog INFO "log-in with username: %s" [LStr "alice"];
        EvJiraLogin JIRA_SERVER ("alice", "secret");
        EvHttpGet (LOGS_COLLECTOR +:+ "/files/");
        EvSearch query block_size 0 ["summary"; "key"; "status"]].
Proof.
  split; [reflexivity|].
  rewrite (no_issues_is_an_error Demo.no_tickets 5 Demo.alice Demo.init "alice"
             Demo.jclient _ (DocFiles [Demo.failure_abc]) _ ∅ _ eq_refl eq_refl eq_refl).
  split; reflexivity.
Defined.

Lemma unparsed_credentials_abort_witness :
  PyStr.contains ":" "alice" = false
  /\ resolve_credentials Demo.fresh (Demo.cli (Some "alice") false) Demo.init
     = (Return None,
        {| world := tt; trace := [EvLog ERROR "Failed to parse user:password" []] |})
  /\ main Demo.fresh 5 (Demo.cli (Some "alice") false) Demo.init
     = (Raise (UnboundLocalError "username"),
        {| world := tt; trace := [EvLog ERROR "Failed to parse user:password" []] |}).
Proof.
  split; [reflexivity|].
  exact (unparsed_credentials_abort Demo.fresh 5 (Demo.cli (Some "alice") false)
           Demo.init "alice" eq_refl eq_refl).
Defined.

Ltac show_ticketable :=
  do 11 eexists;
  split; [reflexivity|];
  split; [reflexivity|];
  split; [split; [reflexivity|eexists; split; reflexivity]|];
  split; [reflexivity|];
  split; [split; [eexists _, _; split; reflexivity|repeat split; reflexivity]|];
  reflexivity.

Lemma tickets_created_once_witness :
  created_summaries (new_events Demo.init (main Demo.two_bundles 5 Demo.alice Demo.init).2)
  = ["cloud.redhat.com failure: 2023-01-01_cluster-abc";
     "cloud.redhat.com failure: 2023-01-02_cluster-xyz"]
  /\ NoDup (created_summaries
              (new_events Demo.init (main Demo.two_bundles 5 Demo.alice Demo.init).2))
  /\ (forall s,
        s ∈ created_summaries
              (new_events Demo.init (main Demo.two_bundles 5 Demo.alice Demo.init).2) ->
        s ∉ Demo.existing_other)
  /\ exists l1 l2 l3,
       created_summaries
         (new_events Demo.init (main Demo.listed_twice 5 Demo.alice Demo.init).2)
       = l1 ++ "cloud.redhat.com failure: 2023-01-01_cluster-abc"
            :: l2 ++ "cloud.redhat.com failure: 2023-01-01_cluster-abc" :: l3.
Proof.
  destruct (tickets_created_once Demo.two_bundles 5 Demo.alice Demo.init)
    as (Hdistinct & Hfresh & _).
  destruct (tickets_created_once Demo.listed_twice 5 Demo.alice Demo.init)
    as (_ & _ & Htwice).
  split; [reflexivity|]. split; [|split].
  - apply Hdistinct.
    intros username jclient st1 failed_clusters st2 Hlogin Hlist.
    vm_compute in Hlogin. injection Hlogin as _ _ <-.
    vm_compute in Hlist. injection Hlist as <- _.
    vm_compute. apply NoDup_cons. split; [|apply NoDup_singleton].
    intros Hin. apply list_elem_of_singleton in Hin. discriminate Hin.
  - intros s Hs.
    destruct (Hfresh s Hs) as (username & jclient & st1 & failed_clusters & st2 & issues
                               & summaries & st3 & name & Hlogin & Hlist & Htickets
                               & _ & _ & Hnew).
    vm_compute in Hlogin. injection Hlogin as _ <- <-.
    vm_compute in Hlist. injection Hlist as _ <-.
    vm_compute in Htickets. injection Htickets as _ <- _.
    exact Hnew.
  - pose (st1 := (login Demo.listed_twice Demo.alice Demo.init).2).
    pose (st2 := (list_failures Demo.listed_twice st1).2).
    pose (st3 := (get_all_triage_tickets Demo.listed_twice 5 Demo.jclient st2).2).
    pose (sb := (handle_failure Demo.listed_twice Demo.alice Demo.jclient
                   Demo.existing_other (ItemDict Demo.failure_abc) st3).2).
    apply (Htwice "alice" Demo.jclient st1
             (DocFiles [Demo.failure_abc; Demo.failure_abc]) st2
             [Demo.other_ticket] Demo.existing_other st3
             [] (ItemDict Demo.failure_abc) [] [] "2023-01-01_cluster-abc" st3 sb sb).
    + vm_compute. reflexivity.
    + vm_compute. reflexivity.
    + vm_compute. reflexivity.
    + discriminate.
    + reflexivity.
    + exact abc_not_ticketed.
    + reflexivity.
    + show_ticketable.
    + vm_compute. reflexivity.
    + reflexivity.
    + show_ticketable.
Defined.

(** ** Where the stated claims fail *)

(** A name listed twice, with an error status and no ticket yet, is
    ticketed twice in the same run: two creation calls carry the same
    summary. *)
Lemma duplicate_listing_ticketed_twice :
  created_summaries
    (new_events Demo.init (main Demo.listed_twice 5 Demo.alice Demo.init).2)
  = ["cloud.redhat.com failure: 2023-01-01_cluster-abc";
     "cloud.redhat.com failure: 2023-01-01_cluster-abc"]
  /\ ~ NoDup (created_summaries
                (new_events Demo.init (main Demo.listed_twice 5 Demo.alice Demo.init).2)).
Proof.
  assert (Hrun : created_summaries
                   (new_events Demo.init (main Demo.listed_twice 5 Demo.alice Demo.init).2)
                 = ["cloud.redhat.com failure: 2023-01-01_cluster-abc";
                    "cloud.redhat.com failure: 2023-01-01_cluster-abc"])
    by (vm_compute; reflexivity).
  split; [exact Hrun|].
  rewrite Hrun. intros Hnd. apply NoDup_cons in Hnd as [Hnotin _].
  apply Hnotin. left.
Qed.

(** With the credential string [alice] the run does not go on to the
    tracker: it ends in an exception without any authenticated call. *)
Lemma unparsed_credentials_do_not_go_on :
  PyStr.contains ":" "alice" = false
  /\ ~ goes_on_to_tracker (main Demo.fresh 5 (Demo.cli (Some "alice") false) Demo.init).
Proof.
  split; [reflexivity|].
  intros [Hok|Hcall].
  - by apply (Hok (UnboundLocalError "username")).
  - apply Exists_cons in Hcall as [Hcall|Hcall]; [discriminate Hcall|].
    by apply Exists_nil in Hcall.
Qed.

(** ** More on [split] *)

Lemma split_no_more sep s : PyStr.split sep (Some 0) s = [s].
Proof.
  induction s as [|c s IH]; simpl; [done|].
  destruct (Ascii.eqb c sep); [done|]. by rewrite IH.
Qed.

Lemma split_at_first sep maxsplit a b :
  PyStr.contains sep a = false ->
  PyStr.split sep maxsplit (a +:+ String sep b)
  = match maxsplit with
    | Some 0 => [a +:+ String sep b]
    | Some (S n) => a :: PyStr.split sep (Some n) b
    | None => a :: PyStr.split sep None b
    end.
Proof.
  induction a as [|c a IH]; simpl.
  - intros _. rewrite Ascii.eqb_refl. by destruct maxsplit as [[|n]|].
  - intros H. apply orb_false_iff in H as [Hc Ha]. rewrite Hc, (IH Ha).
    by destruct maxsplit as [[|n]|].
Qed.

(** ** Credentials and the listing *)

Section Startup.

Context {W : Type} (E : environment W).

(** X1: When the netrc file has no entry for the tracker host, unpacking the
    answer of [authenticators] raises [TypeError]: the run ends after the
    netrc lookup, before the client is built. *)
Theorem netrc_entry_missing fuel arg (st : state W) w' :
  arg_user_password arg = None ->
  env_netrc E (arg_netrc arg) JIRA_HOSTNAME (world st) = (inr None, w') ->
  main E fuel arg st
  = (Raise TypeError,
     {| world := w'; trace := trace st ++ [EvNetrc (arg_netrc arg) JIRA_HOSTNAME] |}).
Proof.
  intros Hup Hnetrc. unfold main.
  erewrite bind_raised; [done|].
  unfold login. erewrite bind_raised; [done|].
  unfold resolve_credentials. rewrite Hup.
  erewrite bind_raised; [done|].
  unfold get_credentials_from_netrc.
  erewrite bind_return by (by apply perform_return). done.
Qed.

(** X2: An explicit [user:password] string is cut at its first ":" only: the
    password may itself contain ":".  The netrc file is not read, and the
    client is built with exactly that user and that password, after the
    user (and not the password) has been logged. *)
Theorem explicit_credentials_parsed arg (st : state W) user password :
  arg_user_password arg = Some (user +:+ ":" +:+ password) ->
  PyStr.contains ":" user = false ->
  resolve_credentials E arg st = (Return (Some (user, password)), st)
  /\ trace (login E arg st).2
     = trace st ++ [EvLog INFO "log-in with username: %s" [LStr user];
                    EvJiraLogin JIRA_SERVER (user, password)].
Proof.
  intros Hup Hcolon.
  assert (Hstep : resolve_credentials E arg st = (Return (Some (user, password)), st)).
  { unfold resolve_credentials. rewrite Hup. unfold try_except.
    change (":" +:+ password) with (String ":" password).
    rewrite (split_at_first _ _ _ _ Hcolon), split_no_more. done. }
  split; [exact Hstep|].
  unfold login. erewrite bind_return by apply Hstep.
  unfold read_credentials. rewrite bind_ret. cbn [fst snd]. unfold get_jira_client, bind, log, perform. simpl.
  destruct (env_jira E JIRA_SERVER (user, password) (world st)) as [[e|[]] w1]; simpl;
    by rewrite <- app_assoc.
Qed.

(** X3: An error status of the listing request is not caught by the [try]
    around [requests.get]: [raise_for_status] runs after it, so the run
    ends with [HTTPError], not with exit status 1, and nothing is logged. *)
Theorem listing_error_status_propagates fuel arg (st : state W) username jclient st1 res w' :
  login E arg st = (Return (username, jclient), st1) ->
  env_requests_get E (LOGS_COLLECTOR +:+ "/files/") (world st1) = (inr res, w') ->
  (400 <=? status_code res) && (status_code res <? 600) = true ->
  main E fuel arg st
  = (Raise (HTTPError (status_code res)),
     {| world := w'; trace := trace st1 ++ [EvHttpGet (LOGS_COLLECTOR +:+ "/files/")] |}).
Proof.
  intros Hlogin Hget Hcode. unfold main.
  erewrite bind_return by apply Hlogin.
  erewrite bind_raised; [done|].
  unfold list_failures. erewrite bind_return; cycle 1.
  { unfold try_except, requests_get. by erewrite perform_return by apply Hget. }
  erewrite bind_raised; [done|].
  unfold raise_for_status. by rewrite Hcode.
Qed.

End Startup.

(** ** More on the pagination *)

Section Tickets.

Context {W : Type} (E : environment W).

Lemma triage_tickets_loop_parallel fuel jclient :
  forall idx summaries issues (st st' : state W) all_issues all_summaries,
    summaries = summary <$> issues ->
    triage_tickets_loop E fuel jclient idx summaries issues st
      = (Return (all_issues, all_summaries), st') ->
    all_summaries = summary <$> all_issues.
Proof.
  induction fuel as [|fuel IH]; intros idx summaries issues st st' all_issues all_summaries
    Hpar; simpl; [done|].
  unfold bind, perform.
  destruct (env_search_issues E jclient query block_size idx _ (world st))
    as [[e|issues_bulk] w1]; simpl; [done|].
  destruct (length issues_bulk =? 0).
  - unfold ret. intros H. by simplify_eq.
  - apply IH. by rewrite fmap_app, Hpar.
Qed.

(** X4: Whatever the tracker answers, the summary set that
    [get_all_triage_tickets] returns is the set of the summaries of the
    issues it returns with it: a summary is in the set exactly when one of
    the returned issues carries it. *)
Theorem summaries_of_returned_issues fuel jclient (st st' : state W) issues
    (summaries : gset string) :
  get_all_triage_tickets E fuel jclient st = (Return (issues, summaries), st') ->
  summaries = list_to_set (summary <$> issues)
  /\ forall s, s ∈ summaries <-> exists i, i ∈ issues /\ summary i = s.
Proof.
  unfold get_all_triage_tickets, bind.
  destruct (triage_tickets_loop E fuel jclient 0 [] [] st) as [[[l ss]|e|] st1] eqn:Hloop;
    [|done..].
  unfold ret. simpl. intros H. simplify_eq.
  apply triage_tickets_loop_parallel in Hloop; [|done]. subst ss.
  split; [done|].
  intros s. rewrite elem_of_list_to_set, list_elem_of_fmap. split.
  - intros (i & -> & Hi). eauto.
  - intros (i & Hi & <-). eauto.
Qed.

Lemma triage_tickets_loop_search_error jclient pages :
  Forall nonempty_page pages ->
  forall fuel idx summaries issues w w1 w' tr e,
    serves E jclient idx pages w w1 ->
    env_search_issues E jclient query block_size (idx + length pages * block_size)
      ["summary"; "key"; "status"] w1 = (inl e, w') ->
    length pages < fuel ->
    triage_tickets_loop E fuel jclient idx summaries issues {| world := w; trace := tr |}
    = (Raise e,
       {| world := w';
          trace := tr ++ ((fun k => EvSearch query block_size (idx + k * block_size)
                                      ["summary"; "key"; "status"])
                            <$> seq 0 (S (length pages))) |}).
Proof.
  induction 1 as [|p ps Hp _ IH]; intros fuel idx summaries issues w w1 w' tr e
    Hserves Herr Hfuel.
  - destruct fuel as [|fuel]; [simpl in Hfuel; lia|].
    simpl in Hserves. subst w1. simpl in Herr. rewrite Nat.add_0_r in Herr. simpl.
    erewrite bind_raised by (by apply perform_raise).
    by rewrite Nat.add_0_r.
  - destruct fuel as [|fuel]; [simpl in Hfuel; lia|].
    destruct Hserves as (w2 & Hsearch & Hrest).
    cbn [triage_tickets_loop].
    erewrite bind_return by (by apply perform_return).
    destruct p as [|i p]; [done|]. cbn [length Nat.eqb].
    rewrite (IH fuel _ _ _ w2 w1 w' _ e Hrest).
    + rewrite !searches_from, <- !app_assoc. done.
    + rewrite <- Herr. f_equal. simpl. unfold block_size. lia.
    + simpl in Hfuel. lia.
Qed.

(** X5: When a search raises after some non-empty pages, the pagination
    raises with it: the pages fetched so far are not returned. *)
Theorem search_error_aborts_pagination jclient pages fuel w w1 w' tr e :
  Forall nonempty_page pages ->
  serves E jclient 0 pages w w1 ->
  env_search_issues E jclient query block_size (length pages * block_size)
    ["summary"; "key"; "status"] w1 = (inl e, w') ->
  length pages < fuel ->
  get_all_triage_tickets E fuel jclient {| world := w; trace := tr |}
  = (Raise e, {| world := w'; trace := tr ++ searches (S (length pages)) |}).
Proof.
  intros Hpages Hserves Herr Hfuel. unfold get_all_triage_tickets.
  erewrite bind_raised; [done|].
  by apply (triage_tickets_loop_search_error jclient pages Hpages fuel 0 [] [] w w1 w' tr e).
Qed.

End Tickets.

(** ** More on the creation of a ticket *)

Section Partial_failures.

Context {W : Type} (E : environment W).

Lemma create_jira_ticket_fields jclient (existing_tickets : gset string) failure_id
    (cluster_md : pydict) (st : state W) major minor user_name email_domain cluster_id :
  JIRA_SUMMARY +:+ failure_id ∉ existing_tickets ->
  cluster_fields cluster_md major minor user_name email_domain cluster_id ->
  create_jira_ticket E jclient existing_tickets failure_id cluster_md st
  = bind (perform (EvBuildDescription (LOGS_COLLECTOR +:+ "/files/" +:+ failure_id) cluster_md)
            (env_build_description E jclient (LOGS_COLLECTOR +:+ "/files/" +:+ failure_id)
               cluster_md))
      (fun description =>
         let fields := expected_fields failure_id major minor user_name email_domain
                         cluster_id description in
         new_issue <- perform (EvCreateIssue fields) (env_create_issue E jclient fields) ;;
         log INFO "issue created: %s" [LIssue new_issue] ;;
         add_watchers E jclient new_issue ;;
         ret (Some new_issue)) st.
Proof.
  intros Hnew ((version & rest & Hv & Hsplit) & Hu & Hd & Hi).
  by erewrite create_jira_ticket_new.
Qed.

(** X6: The whole of a successful creation: the description is built, the
    issue is created with the fields of lines 87 to 97, the creation is
    logged, the two default watchers are added in their order to the new
    issue, and the new issue is returned. *)
Theorem create_jira_ticket_success jclient (existing_tickets : gset string) failure_id
    (cluster_md : pydict) (st : state W) major minor user_name email_domain cluster_id
    description new_issue w1 w2 w3 w4 :
  JIRA_SUMMARY +:+ failure_id ∉ existing_tickets ->
  cluster_fields cluster_md major minor user_name email_domain cluster_id ->
  env_build_description E jclient (LOGS_COLLECTOR +:+ "/files/" +:+ failure_id) cluster_md
    (world st) = (inr description, w1) ->
  env_create_issue E jclient
    (expected_fields failure_id major minor user_name email_domain cluster_id description) w1
    = (inr new_issue, w2) ->
  env_add_watcher E jclient (key new_issue) "ronniela" w2 = (inr tt, w3) ->
  env_add_watcher E jclient (key new_issue) "odepaz" w3 = (inr tt, w4) ->
  create_jira_ticket E jclient existing_tickets failure_id cluster_md st
  = (Return (Some new_issue),
     {| world := w4;
        trace := trace st ++
          [EvBuildDescription (LOGS_COLLECTOR +:+ "/files/" +:+ failure_id) cluster_md;
           EvCreateIssue (expected_fields failure_id major minor user_name email_domain
                            cluster_id description);
           EvLog INFO "issue created: %s" [LIssue new_issue];
           EvAddWatcher (key new_issue) "ronniela";
           EvAddWatcher (key new_issue) "odepaz"] |}).
Proof.
  intros Hnew Hfields Hdesc Hcreate Hw1 Hw2.
  rewrite (create_jira_ticket_fields _ _ _ _ _ _ _ _ _ _ Hnew Hfields).
  erewrite bind_return by (apply perform_return, Hdesc). cbn zeta.
  erewrite bind_return by (apply perform_return, Hcreate).
  erewrite bind_return by reflexivity.
  unfold add_watchers, DEFAULT_WATCHERS. cbn [for_each].
  rewrite bind_assoc. erewrite bind_return by (apply perform_return, Hw1).
  rewrite bind_assoc. erewrite bind_return by (apply perform_return, Hw2).
  rewrite !bind_ret. unfold ret. cbn [world trace]. by rewrite <- !app_assoc.
Qed.

(** X7: When the tracker refuses the first watcher, the issue has already been
    created: [create_jira_ticket] raises after the creation, the second
    watcher is not tried and the new issue is not returned. *)
Theorem watcher_failure_after_creation jclient (existing_tickets : gset string)
    failure_id (cluster_md : pydict) (st : state W) major minor user_name email_domain
    cluster_id description new_issue w1 w2 w3 e :
  JIRA_SUMMARY +:+ failure_id ∉ existing_tickets ->
  cluster_fields cluster_md major minor user_name email_domain cluster_id ->
  env_build_description E jclient (LOGS_COLLECTOR +:+ "/files/" +:+ failure_id) cluster_md
    (world st) = (inr description, w1) ->
  env_create_issue E jclient
    (expected_fields failure_id major minor user_name email_domain cluster_id description) w1
    = (inr new_issue, w2) ->
  env_add_watcher E jclient (key new_issue) "ronniela" w2 = (inl e, w3) ->
  create_jira_ticket E jclient existing_tickets failure_id cluster_md st
  = (Raise e,
     {| world := w3;
        trace := trace st ++
          [EvBuildDescription (LOGS_COLLECTOR +:+ "/files/" +:+ failure_id) cluster_md;
           EvCreateIssue (expected_fields failure_id major minor user_name email_domain
                            cluster_id description);
           EvLog INFO "issue created: %s" [LIssue new_issue];
           EvAddWatcher (key new_issue) "ronniela"] |}).
Proof.
  intros Hnew Hfields Hdesc Hcreate Hw1.
  rewrite (create_jira_ticket_fields _ _ _ _ _ _ _ _ _ _ Hnew Hfields).
  erewrite bind_return by (apply perform_return, Hdesc). cbn zeta.
  erewrite bind_return by (apply perform_return, Hcreate).
  erewrite bind_return by reflexivity.
  unfold add_watchers, DEFAULT_WATCHERS. cbn [for_each].
  rewrite bind_assoc. erewrite bind_raised by (apply perform_raise, Hw1).
  cbn [world trace]. by rewrite <- !app_assoc.
Qed.

(** X8: A failure before the issue exists leaves nothing behind: when the
    description cannot be built no creation is requested, and when the
    tracker refuses the creation no watcher is added. *)
Theorem creation_failures jclient (existing_tickets : gset string) failure_id
    (cluster_md : pydict) (st : state W) major minor user_name email_domain cluster_id :
  JIRA_SUMMARY +:+ failure_id ∉ existing_tickets ->
  cluster_fields cluster_md major minor user_name email_domain cluster_id ->
  let url := LOGS_COLLECTOR +:+ "/files/" +:+ failure_id in
  (forall e w1,
     env_build_description E jclient url cluster_md (world st) = (inl e, w1) ->
     create_jira_ticket E jclient existing_tickets failure_id cluster_md st
     = (Raise e,
        {| world := w1; trace := trace st ++ [EvBuildDescription url cluster_md] |}))
  /\ (forall description w1 e w2,
        env_build_description E jclient url cluster_md (world st) = (inr description, w1) ->
        env_create_issue E jclient
          (expected_fields failure_id major minor user_name email_domain cluster_id
             description) w1 = (inl e, w2) ->
        create_jira_ticket E jclient existing_tickets failure_id cluster_md st
        = (Raise e,
           {| world := w2;
              trace := trace st ++
                [EvBuildDescription url cluster_md;
                 EvCreateIssue (expected_fields failure_id major minor user_name
                                  email_domain cluster_id description)] |})).
Proof.
  intros Hnew Hfields url. split.
  - intros e w1 Hdesc.
    rewrite (create_jira_ticket_fields _ _ _ _ _ _ _ _ _ _ Hnew Hfields).
    by erewrite bind_raised by (apply perform_raise, Hdesc).
  - intros description w1 e w2 Hdesc Hcreate.
    rewrite (create_jira_ticket_fields _ _ _ _ _ _ _ _ _ _ Hnew Hfields).
    erewrite bind_return by (apply perform_return, Hdesc). cbn zeta.
    erewrite bind_raised by (apply perform_raise, Hcreate).
    cbn [world trace]. by rewrite <- !app_assoc.
Qed.

End Partial_failures.

(** ** What the metadata must carry *)

Section Metadata.

Context {W : Type} (E : environment W).

(** X9: A cluster document that lacks the version or one of the three fields
    of the labels makes [create_jira_ticket] raise before it calls
    anything: the world and the trace are as they were. *)
Theorem incomplete_metadata_no_call jclient (existing_tickets : gset string) failure_id
    (cluster_md : pydict) (st : state W) k :
  JIRA_SUMMARY +:+ failure_id ∉ existing_tickets ->
  k ∈ ["openshift_version"; "user_name"; "email_domain"; "id"] ->
  cluster_md !! k = None ->
  exists e,
    create_jira_ticket E jclient existing_tickets failure_id cluster_md st = (Raise e, st)
    /\ (e = ValueError \/ exists missing, e = KeyError missing /\ cluster_md !! missing = None).
Proof.
  intros Hnew Hk Hnone. unfold create_jira_ticket.
  erewrite bind_return by apply format_summary_id.
  rewrite decide_False by done.
  destruct (cluster_md !! "openshift_version") as [version|] eqn:Hv; cycle 1.
  { exists (KeyError "openshift_version"). unfold getitem. rewrite Hv. eauto. }
  erewrite bind_return by (by apply getitem_some).
  destruct (PyStr.split "." None version) as [|major [|minor rest]] eqn:Hsplit;
    [exists ValueError; eauto..|].
  simpl unpack_major_minor. rewrite bind_ret.
  destruct (cluster_md !! "user_name") as [user_name|] eqn:Hu; cycle 1.
  { exists (KeyError "user_name"). unfold getitem. rewrite Hu. eauto. }
  erewrite bind_return by (by apply getitem_some).
  destruct (cluster_md !! "email_domain") as [email_domain|] eqn:Hd; cycle 1.
  { exists (KeyError "email_domain"). unfold getitem. rewrite Hd. eauto. }
  erewrite bind_return by (by apply getitem_some).
  destruct (cluster_md !! "id") as [cluster_id|] eqn:Hi; cycle 1.
  { exists (KeyError "id"). unfold getitem. rewrite Hi. eauto. }
  exfalso. repeat (apply elem_of_cons in Hk as [->|Hk]; [congruence|]).
  by apply elem_of_nil in Hk.
Qed.

Lemma append_empty s : s +:+ "" = s.
Proof.
  induction s as [|c s IH]; [done|].
  change (String c (s +:+ "") = String c s). by rewrite IH.
Qed.

(** X10: Only the first two components of the version count: for a version
    [major.minor] followed by nothing or by "." and anything, the ticket
    that is created has [OpenShift major.minor] as its versions field. *)
Theorem version_field_major_minor jclient (existing_tickets : gset string) failure_id
    (cluster_md : pydict) (st : state W) major minor suffix user_name email_domain
    cluster_id description w1 :
  JIRA_SUMMARY +:+ failure_id ∉ existing_tickets ->
  cluster_md !! "openshift_version" = Some (major +:+ "." +:+ minor +:+ suffix) ->
  PyStr.contains "." major = false ->
  PyStr.contains "." minor = false ->
  (suffix = "" \/ exists more, suffix = "." +:+ more) ->
  cluster_md !! "user_name" = Some user_name ->
  cluster_md !! "email_domain" = Some email_domain ->
  cluster_md !! "id" = Some cluster_id ->
  env_build_description E jclient (LOGS_COLLECTOR +:+ "/files/" +:+ failure_id) cluster_md
    (world st) = (inr description, w1) ->
  exists fields,
    creations (new_events st
      (create_jira_ticket E jclient existing_tickets failure_id cluster_md st).2) = [fields]
    /\ f_versions fields = ["OpenShift " +:+ major +:+ "." +:+ minor].
Proof.
  intros Hnew Hv Hmajor Hminor Hsuffix Hu Hd Hi Hdesc.
  assert (Hsplit : exists rest,
    PyStr.split "." None (major +:+ "." +:+ minor +:+ suffix) = major :: minor :: rest).
  { change ("." +:+ minor +:+ suffix) with (String "." (minor +:+ suffix)).
    rewrite (split_at_first _ _ _ _ Hmajor).
    destruct Hsuffix as [->|[more ->]].
    - rewrite append_empty, (split_without_sep _ _ _ Hminor). eauto.
    - change ("." +:+ more) with (String "." more).
      rewrite (split_at_first _ _ _ _ Hminor). eauto. }
  destruct Hsplit as [rest Hsplit].
  exists (expected_fields failure_id major minor user_name email_domain cluster_id description).
  split; [|done].
  rewrite (create_jira_ticket_fields E jclient existing_tickets failure_id cluster_md st
             major minor user_name email_domain cluster_id Hnew).
  - erewrite bind_return by (apply perform_return, Hdesc).
    by eapply (create_issue_once E jclient _ st _ [_]).
  - split; [eauto|done].
Qed.

(** X11: For a cluster in error the signatures are attached exactly when
    [create_jira_ticket] returned an issue, under its key and the URL of
    the bundle's logs: when it returned [None] (the ticket exists
    already) the loop body ends there without attaching anything, and
    when it raises, also after the issue was created, the exception goes
    on and no signature is attached. *)
Theorem signatures_follow_creation jclient (summaries : gset string) name res cluster_md
    (st st1 : state W) :
  serves_cluster res cluster_md ->
  cluster_md !! "status" = Some "error" ->
  (forall i,
     create_jira_ticket E jclient summaries name cluster_md st = (Return (Some i), st1) ->
     handle_metadata E jclient summaries name res st
     = perform (EvAddSignatures (LOGS_COLLECTOR +:+ "/files/" +:+ name) (key i))
         (env_add_signatures E jclient (LOGS_COLLECTOR +:+ "/files/" +:+ name) (key i)) st1)
  /\ (create_jira_ticket E jclient summaries name cluster_md st = (Return None, st1) ->
      handle_metadata E jclient summaries name res st = (Return tt, st1))
  /\ (forall e,
        create_jira_ticket E jclient summaries name cluster_md st = (Raise e, st1) ->
        handle_metadata E jclient summaries name res st = (Raise e, st1)).
Proof.
  intros (Hcode & m & Hjson & Hcluster) Hstatus.
  assert (Hstart :
    handle_metadata E jclient summaries name res st
    = bind (create_jira_ticket E jclient summaries name cluster_md)
        (fun new_issue =>
           match new_issue with
           | Some i =>
               perform (EvAddSignatures (LOGS_COLLECTOR +:+ "/files/" +:+ name) (key i))
                 (env_add_signatures E jclient (LOGS_COLLECTOR +:+ "/files/" +:+ name) (key i))
           | None => ret tt
           end) st).
  { unfold handle_metadata, raise_for_status. rewrite Hcode, bind_ret.
    unfold res_json. rewrite Hjson, bind_ret.
    unfold doc_getitem. rewrite Hcluster, bind_ret.
    erewrite bind_return by (by apply getitem_some).
    by rewrite decide_True by done. }
  split; [|split].
  - intros i Hcreate. rewrite Hstart.
    by erewrite bind_return by apply Hcreate.
  - intros Hcreate. rewrite Hstart.
    by erewrite bind_return by apply Hcreate.
  - intros e Hcreate. rewrite Hstart.
    by erewrite bind_raised by apply Hcreate.
Qed.


End Metadata.

(** ** More on the loop and the end of the run *)

Section Calls.

Context {W : Type}.



Lemma only_log (P : event -> Prop) lvl fmt a : P (EvLog lvl fmt a) -> only (W:=W) P (log lvl fmt a).
Proof. intros HP st. exists [EvLog lvl fmt a]. split; [done|]. by constructor. Qed.





End Calls.

Section Whole_run.

Context {W : Type} (E : environment W).






End Whole_run.

(** ** These theorems at concrete inputs *)

Lemma netrc_entry_missing_witness :
  main Demo.no_netrc_entry 5 (Demo.cli None false) Demo.init
  = (Raise TypeError,
     {| world := tt; trace := [EvNetrc DEFAULT_NETRC_FILE JIRA_HOSTNAME] |}).
Proof.
  exact (netrc_entry_missing Demo.no_netrc_entry 5 (Demo.cli None false) Demo.init tt
           eq_refl eq_refl).
Defined.

Lemma explicit_credentials_parsed_witness :
  PyStr.contains ":" "alice" = false
  /\ resolve_credentials Demo.fresh (Demo.cli (Some "alice:se:cret") false) Demo.init
     = (Return (Some ("alice", "se:cret")), Demo.init)
  /\ trace (login Demo.fresh (Demo.cli (Some "alice:se:cret") false) Demo.init).2
     = [EvLog INFO "log-in with username: %s" [LStr "alice"];
        EvJiraLogin JIRA_SERVER ("alice", "se:cret")].
Proof.
  split; [reflexivity|].
  exact (explicit_credentials_parsed Demo.fresh (Demo.cli (Some "alice:se:cret") false)
           Demo.init "alice" "se:cret" eq_refl eq_refl).
Defined.

Lemma listing_error_status_propagates_witness :
  (main Demo.unavailable 5 Demo.alice Demo.init).1 = Raise (HTTPError 503)
  /\ last (trace (main Demo.unavailable 5 Demo.alice Demo.init).2)
     = Some (EvHttpGet (LOGS_COLLECTOR +:+ "/files/")).
Proof.
  rewrite (listing_error_status_propagates Demo.unavailable 5 Demo.alice Demo.init
             "alice" Demo.jclient _ {| status_code := 503; json := None |} tt
             eq_refl eq_refl eq_refl).
  split; reflexivity.
Defined.

Lemma summaries_of_returned_issues_witness :
  get_all_triage_tickets Demo.two_pages 3 Demo.jclient Demo.init
  = (Return ([Demo.other_ticket; Demo.ticket_abc],
             {[ summary Demo.other_ticket ]} ∪ ({[ summary Demo.ticket_abc ]} ∪ ∅)),
     {| world := tt; trace := searches 3 |})
  /\ ({[ summary Demo.other_ticket ]} ∪ ({[ summary Demo.ticket_abc ]} ∪ ∅) : gset string)
     = list_to_set (summary <$> [Demo.other_ticket; Demo.ticket_abc]).
Proof.
  assert (Hrun : get_all_triage_tickets Demo.two_pages 3 Demo.jclient Demo.init
                 = (Return ([Demo.other_ticket; Demo.ticket_abc],
                            {[ summary Demo.other_ticket ]}
                              ∪ ({[ summary Demo.ticket_abc ]} ∪ ∅)),
                    {| world := tt; trace := searches 3 |})) by reflexivity.
  split; [exact Hrun|].
  exact (proj1 (summaries_of_returned_issues Demo.two_pages 3 Demo.jclient Demo.init _ _ _
                  Hrun)).
Defined.

Lemma search_error_aborts_pagination_witness :
  Forall nonempty_page [[Demo.other_ticket]]
  /\ get_all_triage_tickets Demo.second_search_fails 5 Demo.jclient Demo.init
     = (Raise Demo.jira_error, {| world := tt; trace := searches 2 |}).
Proof.
  assert (Hpages : Forall nonempty_page [[Demo.other_ticket]])
    by (repeat constructor; discriminate).
  split; [exact Hpages|].
  apply (search_error_aborts_pagination Demo.second_search_fails Demo.jclient
           [[Demo.other_ticket]] 5 tt tt tt [] Demo.jira_error Hpages).
  - simpl. eexists. split; reflexivity.
  - reflexivity.
  - simpl. lia.
Defined.

Lemma create_jira_ticket_success_witness :
  (create_jira_ticket Demo.healthy Demo.jclient Demo.existing_other
     "2023-01-01_cluster-abc" Demo.cluster_abc Demo.init).1 = Return (Some Demo.new_ticket)
  /\ drop 1 (trace (create_jira_ticket Demo.healthy Demo.jclient Demo.existing_other
                      "2023-01-01_cluster-abc" Demo.cluster_abc Demo.init).2)
     = [EvCreateIssue (expected_fields "2023-01-01_cluster-abc" "4" "12" "alice"
                         "redhat.com" "abc" "description");
        EvLog INFO "issue created: %s" [LIssue Demo.new_ticket];
        EvAddWatcher "MGMT-9" "ronniela";
        EvAddWatcher "MGMT-9" "odepaz"].
Proof.
  rewrite (create_jira_ticket_success Demo.healthy Demo.jclient Demo.existing_other
             "2023-01-01_cluster-abc" Demo.cluster_abc Demo.init "4" "12" "alice"
             "redhat.com" "abc" "description" Demo.new_ticket tt tt tt tt
             abc_not_ticketed cluster_abc_fields eq_refl eq_refl eq_refl eq_refl).
  split; reflexivity.
Defined.

Lemma watcher_failure_after_creation_witness :
  (create_jira_ticket Demo.no_watchers Demo.jclient Demo.existing_other
     "2023-01-01_cluster-abc" Demo.cluster_abc Demo.init).1 = Raise Demo.jira_error
  /\ drop 1 (trace (create_jira_ticket Demo.no_watchers Demo.jclient Demo.existing_other
                      "2023-01-01_cluster-abc" Demo.cluster_abc Demo.init).2)
     = [EvCreateIssue (expected_fields "2023-01-01_cluster-abc" "4" "12" "alice"
                         "redhat.com" "abc" "description");
        EvLog INFO "issue created: %s" [LIssue Demo.new_ticket];
        EvAddWatcher "MGMT-9" "ronniela"].
Proof.
  rewrite (watcher_failure_after_creation Demo.no_watchers Demo.jclient
             Demo.existing_other "2023-01-01_cluster-abc" Demo.cluster_abc Demo.init
             "4" "12" "alice" "redhat.com" "abc" "description" Demo.new_ticket tt tt tt
             Demo.jira_error abc_not_ticketed cluster_abc_fields eq_refl eq_refl eq_refl).
  split; reflexivity.
Defined.

Lemma creation_failures_witness :
  (create_jira_ticket Demo.no_description Demo.jclient Demo.existing_other
     "2023-01-01_cluster-abc" Demo.cluster_abc Demo.init).1 = Raise Demo.jira_error
  /\ creations (trace (create_jira_ticket Demo.no_description Demo.jclient
                         Demo.existing_other "2023-01-01_cluster-abc" Demo.cluster_abc
                         Demo.init).2) = []
  /\ (create_jira_ticket Demo.no_creation Demo.jclient Demo.existing_other
        "2023-01-01_cluster-abc" Demo.cluster_abc Demo.init).1 = Raise Demo.jira_error
  /\ length (trace (create_jira_ticket Demo.no_creation Demo.jclient Demo.existing_other
                      "2023-01-01_cluster-abc" Demo.cluster_abc Demo.init).2) = 2.
Proof.
  destruct (creation_failures Demo.no_description Demo.jclient Demo.existing_other
              "2023-01-01_cluster-abc" Demo.cluster_abc Demo.init "4" "12" "alice"
              "redhat.com" "abc" abc_not_ticketed cluster_abc_fields) as [Hdesc _].
  destruct (creation_failures Demo.no_creation Demo.jclient Demo.existing_other
              "2023-01-01_cluster-abc" Demo.cluster_abc Demo.init "4" "12" "alice"
              "redhat.com" "abc" abc_not_ticketed cluster_abc_fields) as [_ Hcreate].
  rewrite (Hdesc Demo.jira_error tt eq_refl).
  rewrite (Hcreate "description" tt Demo.jira_error tt eq_refl eq_refl).
  repeat split; reflexivity.
Defined.

Lemma incomplete_metadata_no_call_witness :
  Demo.cluster_no_id !! "id" = None
  /\ exists e,
       create_jira_ticket Demo.healthy Demo.jclient Demo.existing_other
         "2023-01-01_cluster-abc" Demo.cluster_no_id Demo.init = (Raise e, Demo.init).
Proof.
  split; [reflexivity|].
  destruct (incomplete_metadata_no_call Demo.healthy Demo.jclient Demo.existing_other
              "2023-01-01_cluster-abc" Demo.cluster_no_id Demo.init "id"
              abc_not_ticketed) as (e & Hrun & _).
  - do 3 right. left.
  - reflexivity.
  - by exists e.
Defined.

Lemma version_field_major_minor_witness :
  Demo.cluster_rc !! "openshift_version" = Some "4.12.0-rc.1"
  /\ exists fields,
       creations (new_events Demo.init
         (create_jira_ticket Demo.healthy Demo.jclient Demo.existing_other
            "2023-01-01_cluster-abc" Demo.cluster_rc Demo.init).2) = [fields]
       /\ f_versions fields = ["OpenShift 4.12"].
Proof.
  split; [reflexivity|].
  exact (version_field_major_minor Demo.healthy Demo.jclient Demo.existing_other
           "2023-01-01_cluster-abc" Demo.cluster_rc Demo.init "4" "12" ".0-rc.1"
           "alice" "redhat.com" "abc" "description" tt abc_not_ticketed
           eq_refl eq_refl eq_refl (or_intror (ex_intro _ "0-rc.1" eq_refl))
           eq_refl eq_refl eq_refl eq_refl).
Defined.

Lemma signatures_follow_creation_witness :
  serves_cluster (Demo.ok_response (DocMetadata {[ "cluster" := Demo.cluster_abc ]}))
    Demo.cluster_abc
  /\ (handle_metadata Demo.healthy Demo.jclient Demo.existing_other
        "2023-01-01_cluster-abc"
        (Demo.ok_response (DocMetadata {[ "cluster" := Demo.cluster_abc ]})) Demo.init).1
     = Return tt
  /\ last (trace (handle_metadata Demo.healthy Demo.jclient Demo.existing_other
                    "2023-01-01_cluster-abc"
                    (Demo.ok_response (DocMetadata {[ "cluster" := Demo.cluster_abc ]}))
                    Demo.init).2)
     = Some (EvAddSignatures (LOGS_COLLECTOR +:+ "/files/2023-01-01_cluster-abc") "MGMT-9")
  /\ handle_metadata Demo.healthy Demo.jclient Demo.existing_abc
       "2023-01-01_cluster-abc"
       (Demo.ok_response (DocMetadata {[ "cluster" := Demo.cluster_abc ]})) Demo.init
     = (Return tt,
        {| world := tt;
           trace := [EvLog DEBUG "issue found: %s"
                       [LStr "cloud.redhat.com failure: 2023-01-01_cluster-abc"]] |})
  /\ (handle_metadata Demo.no_watchers Demo.jclient Demo.existing_other
        "2023-01-01_cluster-abc"
        (Demo.ok_response (DocMetadata {[ "cluster" := Demo.cluster_abc ]})) Demo.init).1
     = Raise Demo.jira_error
  /\ last (trace (handle_metadata Demo.no_watchers Demo.jclient Demo.existing_other
                    "2023-01-01_cluster-abc"
                    (Demo.ok_response (DocMetadata {[ "cluster" := Demo.cluster_abc ]}))
                    Demo.init).2)
     = Some (EvAddWatcher "MGMT-9" "ronniela").
Proof.
  assert (Hserves : serves_cluster
            (Demo.ok_response (DocMetadata {[ "cluster" := Demo.cluster_abc ]}))
            Demo.cluster_abc).
  { split; [reflexivity|]. eexists. split; reflexivity. }
  split; [exact Hserves|].
  destruct (signatures_follow_creation Demo.healthy Demo.jclient Demo.existing_other
              "2023-01-01_cluster-abc" _ Demo.cluster_abc Demo.init
              (create_jira_ticket Demo.healthy Demo.jclient Demo.existing_other
                 "2023-01-01_cluster-abc" Demo.cluster_abc Demo.init).2 Hserves eq_refl)
    as (Hcreated & _ & _).
  destruct (signatures_follow_creation Demo.healthy Demo.jclient Demo.existing_abc
              "2023-01-01_cluster-abc" _ Demo.cluster_abc Demo.init
              (create_jira_ticket Demo.healthy Demo.jclient Demo.existing_abc
                 "2023-01-01_cluster-abc" Demo.cluster_abc Demo.init).2 Hserves eq_refl)
    as (_ & Hexisting & _).
  destruct (signatures_follow_creation Demo.no_watchers Demo.jclient Demo.existing_other
              "2023-01-01_cluster-abc" _ Demo.cluster_abc Demo.init
              (create_jira_ticket Demo.no_watchers Demo.jclient Demo.existing_other
                 "2023-01-01_cluster-abc" Demo.cluster_abc Demo.init).2 Hserves eq_refl)
    as (_ & _ & Hraised).
  rewrite (Hcreated Demo.new_ticket eq_refl).
  rewrite (Hexisting eq_refl).
  rewrite (Hraised Demo.jira_error eq_refl).
  repeat split; reflexivity.
Defined.





